(** * BIGSI command-line front ends: a shallow embedding

    The development follows the two Python entry points of the repository,
    [bigsi/__main__.py] (the hug-based [bigsi] object) and
    [remcdbg/main.py] (the argparse-based dispatcher), and states the
    properties of the specification over them. *)

From Stdlib Require Import ZArith QArith Ascii String.
From stdpp Require Import base option list strings gmap pretty.

Set Warnings "-register-all".

Local Open Scope string_scope.
Local Open Scope list_scope.
Local Open Scope Z_scope.

(** ** Python values the front ends rely on *)

Module Py.

(** The exceptions that the modelled code can raise. *)
Inductive exn : Type :=
| ZeroDivisionError
| IndexError
| AssertionError
| TypeError
| AttributeError (name : string)
| UnboundLocalError (name : string)
| ValueError (msg : string)
| InvalidSize (text : string)
| BusyLoadingError
| ParameterMismatch
| ReadOnlyError
| SystemExit (code : Z).

(** A computation either returns a value or raises. *)
Inductive result (A : Type) : Type :=
| Ok (a : A)
| Raise (e : exn).
Arguments Ok {A} a.
Arguments Raise {A} e.

Definition bind {A B} (r : result A) (k : A -> result B) : result B :=
  match r with
  | Ok a => k a
  | Raise e => Raise e
  end.

(** Values that cross the boundary of the front end: arguments collected
    by the parsers and what the operations hand back. *)
Inductive value : Type :=
| VNone
| VBool (b : bool)
| VInt (z : Z)
| VFloat (q : Q)
| VStr (s : string)
| VList (l : list value)
| VDict (kv : list (string * value)).

(** The truth value of an optional text argument: [None] and the empty
    string are false, any other text is true. *)
Definition truthy (s : option string) : bool :=
  match s with
  | Some t => negb (String.eqb t "")
  | None => false
  end.

(** [math.ceil(a / b)] for integers [a] and [b <> 0]: the ceiling of the
    exact quotient. Python computes the quotient in double precision;
    the two agree as long as [|a|] stays below [2^53], far above any
    Bloom filter width. *)
Definition ceil_div (a b : Z) : Z := - ((- a) / b).

(** [len(range(start, stop, step))] for a non-zero step. *)
Definition range_len (start stop step : Z) : nat :=
  if 0 <? step then Z.to_nat (ceil_div (stop - start) step)
  else Z.to_nat (ceil_div (start - stop) (- step)).

(** [list(range(start, stop, step))]; a zero step raises [ValueError]. *)
Definition range (start stop step : Z) : result (list Z) :=
  if step =? 0 then Raise (ValueError "range() arg 3 must not be zero")
  else Ok ((fun k : nat => start + Z.of_nat k * step)
             <$> seq 0 (range_len start stop step)).

(** [l[k]]: negative indices count from the end, and an index outside
    [-len(l) .. len(l) - 1] raises [IndexError]. *)
Definition getitem {A} (l : list A) (k : Z) : result A :=
  let n := Z.of_nat (length l) in
  let k' := if k <? 0 then k + n else k in
  if (k' <? 0) || (n <=? k') then Raise IndexError
  else match l !! Z.to_nat k' with
       | Some a => Ok a
       | None => Raise IndexError
       end.

(** [int(s)] on ASCII text, base ten: surrounding whitespace is dropped,
    one sign is allowed, and single underscores may separate digits. *)
Definition is_space (c : ascii) : bool :=
  let n := Z.of_nat (nat_of_ascii c) in
  ((9 <=? n) && (n <=? 13)) || ((28 <=? n) && (n <=? 32)).

Definition digit_val (c : ascii) : option Z :=
  let n := Z.of_nat (nat_of_ascii c) in
  if (48 <=? n) && (n <=? 57) then Some (n - 48) else None.

Fixpoint drop_spaces (cs : list ascii) : list ascii :=
  match cs with
  | c :: cs' => if is_space c then drop_spaces cs' else cs
  | [] => []
  end.

Definition strip (cs : list ascii) : list ascii :=
  rev (drop_spaces (rev (drop_spaces cs))).

Fixpoint parse_digits (acc : Z) (after_digit : bool) (cs : list ascii)
  : option Z :=
  match cs with
  | [] => if after_digit then Some acc else None
  | c :: cs' =>
      match digit_val c with
      | Some d => parse_digits (10 * acc + d) true cs'
      | None =>
          if Ascii.eqb c "_" && after_digit
          then parse_digits acc false cs'
          else None
      end
  end.

Definition int_literal (cs : list ascii) : option Z :=
  match cs with
  | c :: cs' =>
      if Ascii.eqb c "-" then Z.opp <$> parse_digits 0 false cs'
      else if Ascii.eqb c "+" then parse_digits 0 false cs'
      else parse_digits 0 false cs
  | [] => None
  end.

Definition int (s : string) : result Z :=
  match int_literal (strip (String.list_ascii_of_string s)) with
  | Some z => Ok z
  | None =>
      Raise (ValueError ("invalid literal for int() with base 10: " +:+ s))
  end.

(** [needle in s] on text. *)
Fixpoint contains (needle s : string) : bool :=
  String.prefix needle s ||
  match s with
  | EmptyString => false
  | String _ s' => contains needle s'
  end.

(** Evaluate a list of computations from left to right, stopping at the
    first one that raises. *)
Fixpoint collect {A} (rs : list (result A)) : result (list A) :=
  match rs with
  | [] => Ok []
  | r :: rs' =>
      match r with
      | Raise e => Raise e
      | Ok a =>
          match collect rs' with
          | Raise e => Raise e
          | Ok l => Ok (a :: l)
          end
      end
  end.

End Py.

Import Py.

Notation "x <- r ;; k" := (Py.bind r (fun x => k))
  (at level 100, r at next level, right associativity, only parsing).

(** ** The index behind the front end *)

(** The parameters fixed when an index is created; the front end reads
    [bloom_filter_size] and [kmer_size] from the opened index. *)
Record IndexParams : Type := mkParams {
  kmer_size : Z;
  bloom_filter_size : Z;
  num_hashes : Z
}.

#[global] Instance IndexParams_eq_dec : EqDecision IndexParams.
Proof. solve_decision. Defined.

Module Graph.

(** A column of the matrix is either a live sample or a tombstone. *)
Inductive slot : Type :=
| Live (name : string)
| Tombstoned.

(** A persisted index: header, row store and sample registry. The
    registry lists the columns from left to right, so its length is the
    column count [n]. *)
Record Index : Type := mkIndex {
  header : IndexParams;
  rows : gmap Z (list bool);
  registry : list slot
}.

(** What an opened [BIGSI] object knows about itself. [h_mode] is the
    [mode] keyword of the constructor; the front end either leaves it
    out or passes ["r"]. *)
Record Handle : Type := mkHandle {
  h_db : string;
  h_cachesize : option Z;
  h_nproc : option Z;
  h_mode : option string;
  h_params : IndexParams
}.

Definition read_only (h : Handle) : bool :=
  match h_mode h with
  | Some m => String.eqb m "r"
  | None => false
  end.

(** The persistent world of a run: the databases by path, the text
    files by path (as lines), and what was printed. *)
Record World : Type := mkWorld {
  dbs : gmap string Index;
  files : gmap string (list string);
  stdout : list string
}.

Definition set_dbs (w : World) (d : gmap string Index) : World :=
  mkWorld d (files w) (stdout w).

Definition write_file (path : string) (lines : list string) (w : World)
  : World :=
  mkWorld (dbs w) (<[path := lines]> (files w)) (stdout w).

Definition print (line : string) (w : World) : World :=
  mkWorld (dbs w) (files w) (stdout w ++ [line]).

(** Modelled from the spec: the constructor of [bigsi.graph.BIGSI], which
    the front end imports. The spec's facade opens the row store at [db]
    in the requested mode and reads the header once. An index that does
    not exist cannot be opened; the front end's own [delete] expects
    [ValueError] from the constructor. *)
Definition BIGSI (w : World) (db : string) (cachesize nproc : option Z)
  (mode : option string) : result Handle :=
  match dbs w !! db with
  | Some idx => Ok (mkHandle db cachesize nproc mode (header idx))
  | None => Raise (ValueError ("no index at " +:+ db))
  end.

(** Modelled from the spec: [read_row]. An absent row is all zeroes and
    a short row is zero-padded on the right up to the column count. *)
Definition read_row (idx : Index) (r : Z) : list bool :=
  let n := length (registry idx) in
  let bits := default [] (rows idx !! r) in
  take n (bits ++ replicate (n - length bits) false).

(** Modelled from the spec: [merge(acceptor, donor)]. The parameters must
    agree; every row [r] in [[0, m)] becomes [concat(row_a, row_d)]; the
    donor's registry entries, tombstones included, follow the
    acceptor's. *)
Definition merge_index (acceptor donor : Index) : result Index :=
  if negb (bool_decide (header acceptor = header donor))
  then Raise ParameterMismatch
  else
    let m := bloom_filter_size (header acceptor) in
    Ok (mkIndex (header acceptor)
          (list_to_map
             ((fun r => (r, read_row acceptor r ++ read_row donor r))
                <$> seqZ 0 m))
          (registry acceptor ++ registry donor)).

(** Modelled from the spec: the method [acceptor.merge(donor)] on opened
    objects. It writes the acceptor and only reads the donor. *)
Definition merge_method (acceptor donor : Handle) (w : World)
  : result unit * World :=
  if read_only acceptor then (Raise ReadOnlyError, w)
  else
    match dbs w !! h_db acceptor, dbs w !! h_db donor with
    | Some a, Some d =>
        match merge_index a d with
        | Ok a' => (Ok tt, set_dbs w (<[h_db acceptor := a']> (dbs w)))
        | Raise e => (Raise e, w)
        end
    | _, _ => (Raise (ValueError "index closed"), w)
    end.

(** *** Programs over an opened index

    The sub-commands under [bigsi.cmds] are imported by the front end.
    Each is an arbitrary program over the operations of the spec's
    facade, run against the handle it is given. Writes report their
    outcome to the program, which may go on after a refusal. *)
Inductive op : Type -> Type :=
| GetParams : op IndexParams
| GetRow (r : Z) : op (list bool)
| GetRegistry : op (list slot)
| PutRow (r : Z) (bits : list bool) : op (result unit)
| PutRegistry (reg : list slot) : op (result unit)
| ReadFile (path : string) : op (option (list string))
| WriteFile (path : string) (lines : list string) : op unit
| Print (line : string) : op unit.

Inductive prog (A : Type) : Type :=
| Ret (a : A)
| Throw (e : exn)
| Do {X : Type} (o : op X) (k : X -> prog A).
Arguments Ret {A} a.
Arguments Throw {A} e.
Arguments Do {A X} o k.

(** Modelled from the spec: one operation on the index [idx] behind a
    handle. A handle opened with [mode="r"] refuses both writes and leaves
    the index as it was. *)
Definition step {X} (ro : bool) (o : op X) (idx : Index) (w : World)
  : X * Index * World :=
  match o in op X return X * Index * World with
  | GetParams => (header idx, idx, w)
  | GetRow r => (read_row idx r, idx, w)
  | GetRegistry => (registry idx, idx, w)
  | PutRow r bits =>
      if ro then (Raise ReadOnlyError, idx, w)
      else (Ok tt, mkIndex (header idx) (<[r := bits]> (rows idx))
                     (registry idx), w)
  | PutRegistry reg =>
      if ro then (Raise ReadOnlyError, idx, w)
      else (Ok tt, mkIndex (header idx) (rows idx) reg, w)
  | ReadFile path => (files w !! path, idx, w)
  | WriteFile path lines => (tt, idx, write_file path lines w)
  | Print line => (tt, idx, print line w)
  end.

Fixpoint exec {A} (ro : bool) (p : prog A) (idx : Index) (w : World)
  : result A * Index * World :=
  match p with
  | Ret a => (Ok a, idx, w)
  | Throw e => (Raise e, idx, w)
  | Do o k =>
      let '(x, idx', w') := step ro o idx w in
      exec ro (k x) idx' w'
  end.

(** Run a program against the database a handle was opened on. *)
Definition run {A} (h : Handle) (p : prog A) (w : World)
  : result A * World :=
  match dbs w !! h_db h with
  | Some idx =>
      let '(r, idx', w') := exec (read_only h) p idx w in
      (r, set_dbs w' (<[h_db h := idx']> (dbs w')))
  | None => (Raise (ValueError "index closed"), w)
  end.

End Graph.

Import Graph.

(** *** State and errors threaded through the front end *)

Definition M (A : Type) : Type := World -> result A * World.

Definition ret {A} (a : A) : M A := fun w => (Ok a, w).

Definition raise {A} (e : exn) : M A := fun w => (Raise e, w).

Definition lift {A} (r : result A) : M A := fun w => (r, w).

Definition mbind {A B} (c : M A) (k : A -> M B) : M B :=
  fun w =>
    match c w with
    | (Ok a, w') => k a w'
    | (Raise e, w') => (Raise e, w')
    end.

Notation "x <~ c ;; k" := (mbind c (fun x => k))
  (at level 100, c at next level, right associativity, only parsing).

(** ** [bigsi/__main__.py] *)

Module Bigsi.

(** What the process provides: its environment, the lines waiting on
    standard input, and the path [tempfile.mkstemp] hands out. *)
Record Process : Type := mkProcess {
  environ : gmap string string;
  stdin : list string;
  mkstemp : string
}.

(** [int(os.environ.get(name, default))] with an integer default. *)
Definition environ_int (env : gmap string string) (name : string)
  (dflt : Z) : result Z :=
  match env !! name with
  | Some s => int s
  | None => Ok dflt
  end.

(** [os.environ.get(name, default)] with a text default. *)
Definition environ_get (env : gmap string string) (name dflt : string)
  : string :=
  default dflt (env !! name).

(** The module-level constants, in the order the module assigns them. *)
Record Globals : Type := mkGlobals {
  BFSIZE : Z;
  NUM_HASHES : Z;
  STORAGE : string;
  BDB_DB_FILENAME : string;
  CACHESIZE : Z
}.

Definition DEFUALT_DB_DIRECTORY : string := "./db-bigsi/".

Definition load_module (env : gmap string string) : result Globals :=
  bfsize <- environ_int env "BFSIZE" 25000000 ;;
  num_hashes <- environ_int env "NUM_HASHES" 3 ;;
  let storage := environ_get env "STORAGE" "berkeleydb" in
  let bdb_db_filename := environ_get env "BDB_DB_FILENAME" "./db" in
  cachesize <- environ_int env "CACHESIZE" 1 ;;
  Ok (mkGlobals bfsize num_hashes storage bdb_db_filename cachesize).

(** [batch_size = math.ceil(index.bloom_filter_size / N)];
    [i = list(range(0, index.bloom_filter_size, batch_size))[i - 1]];
    [j = i + batch_size]; [return (i, j)]. *)
Definition bf_range_calc (index : Handle) (i N : Z) : result (Z * Z) :=
  let m := bloom_filter_size (h_params index) in
  if N =? 0 then Raise ZeroDivisionError
  else
    let batch_size := ceil_div m N in
    starts <- Py.range 0 m batch_size ;;
    i' <- getitem starts (i - 1) ;;
    let j := i' + batch_size in
    Ok (i', j).

(** Where the k-mers of [bloom] come from: the [kmers] argument as given,
    or the generator [extract_kmers_from_ctx(ctx, k)], which is not run
    until the sub-command iterates it. *)
Inductive kmer_source : Type :=
| KmersGiven (text : string)
| KmersFromCtx (ctx : string) (k : Z).

Definition kmers_truthy (k : option kmer_source) : bool :=
  match k with
  | Some (KmersGiven t) => negb (String.eqb t "")
  | Some (KmersFromCtx _ _) => true
  | None => false
  end.

(** The keyword arguments of the four sub-command calls. *)
Record InsertCall : Type := mkInsertCall {
  ic_graph : Handle;
  ic_bloomfilter : string;
  ic_sample : string;
  ic_bf_range : Z * Z
}.

Record BloomCall : Type := mkBloomCall {
  bc_outfile : string;
  bc_kmers : option kmer_source;
  bc_kmer_file : option string;
  bc_graph : Handle;
  bc_bf_range : list Z;
  bc_batch_size : Z
}.

Record BuildCall : Type := mkBuildCall {
  bu_index : Handle;
  bu_bloomfilter_filepaths : list string;
  bu_samples : list string;
  bu_max_memory : option Z;
  bu_lowmem : bool;
  bu_bf_range : Z * Z
}.

Record SearchCall : Type := mkSearchCall {
  sc_seq : option string;
  sc_fasta_file : option string;
  sc_threshold : Q;
  sc_graph : Handle;
  sc_output_format : string;
  sc_pipe : bool;
  sc_score : bool
}.

(** The collaborators the module imports: the sub-commands of
    [bigsi.cmds], each a program over the index it is handed, and
    [humanfriendly.parse_size]. *)
Class Commands : Type := mkCommands {
  cmds_insert : InsertCall -> prog value;
  cmds_bloom : BloomCall -> prog value;
  cmds_build : BuildCall -> prog value;
  cmds_search : SearchCall -> prog value;
  parse_size : string -> result Z
}.

(** The arguments of [search] with their declared defaults. *)
Record SearchArgs : Type := mkSearchArgs {
  sa_db : option string;
  sa_seq : option string;
  sa_seqfile : option string;
  sa_threshold : Q;
  sa_output_format : string;
  sa_pipe_out : bool;
  sa_pipe_in : bool;
  sa_cachesize : Z;
  sa_score : bool;
  sa_nproc : Z
}.

Definition search_defaults : SearchArgs :=
  mkSearchArgs None None None 1%Q "json" false false 4 false 4.

Definition open (db : string) (cachesize nproc : option Z)
  (mode : option string) : M Handle :=
  fun w => (BIGSI w db cachesize nproc mode, w).

(** [print] of a pair of integers. *)
Definition show_pair (p : Z * Z) : string :=
  "(" +:+ pretty (fst p) +:+ ", " +:+ pretty (snd p) +:+ ")".

(** The tests [search] makes on its arguments, in the order it makes
    them: [if db is None: db = BDB_DB_FILENAME]; *)
Definition search_db (g : Globals) (db : option string) : string :=
  match db with
  | None => BDB_DB_FILENAME g
  | Some d => d
  end.

(** [if output_format in ["tsv", "fasta"]: pipe_out = True]; *)
Definition search_pipe_out (output_format : string) (pipe_out : bool)
  : bool :=
  if bool_decide (output_format ∈ ["tsv"; "fasta"]) then true else pipe_out.

(** [not pipe_in and (not seq and not seqfile)]; *)
Definition search_no_input (pipe_in : bool) (seq seqfile : option string)
  : bool :=
  negb pipe_in && (negb (truthy seq) && negb (truthy seqfile)).

(** [seq == "-" or pipe_in]. *)
Definition search_from_stdin (seq : option string) (pipe_in : bool) : bool :=
  bool_decide (seq = Some "-") || pipe_in.

Section Methods.
Context {C : Commands}.


(** [bigsi.bloom]; the sub-command's value is dropped and the method
    falls off its end. *)
Definition bloom (outfile db : string) (kmers seqfile ctx : option string)
  (N : Z) : M value :=
  index <~ open db None None (Some "r") ;;
  let kmers :=
    if truthy ctx
    then Some (KmersFromCtx (default "" ctx) (kmer_size (h_params index)))
    else KmersGiven <$> kmers in
  if negb (kmers_truthy kmers) && negb (truthy seqfile)
  then ret (VStr "--kmers or --seqfile must be provided")
  else
    let m := bloom_filter_size (h_params index) in
    batch_size <~
      lift (if N =? 0 then Raise ZeroDivisionError else Ok (ceil_div m N)) ;;
    bf_range <~ lift (Py.range 0 m batch_size) ;;
    bf <~ run index
            (cmds_bloom
               (mkBloomCall outfile kmers seqfile index bf_range batch_size)) ;;
    ret VNone.

(** The sample names [build] registers: the caller's when there are any,
    which must then be as many as the Bloom filters, else the paths. *)
Definition resolve_samples (bloomfilters samples : list string)
  : result (list string) :=
  match samples with
  | _ :: _ =>
      if bool_decide (length samples = length bloomfilters)
      then Ok samples
      else Raise AssertionError
  | [] => Ok bloomfilters
  end.

(** [max_memory_bytes]: the parsed size when [max_memory] is given, else
    [None]. *)
Definition parse_max_memory (max_memory : string) : result (option Z) :=
  if negb (String.eqb max_memory "")
  then Py.bind (parse_size max_memory) (fun b => Ok (Some b))
  else Ok None.

Definition one_based : string :=
  "Batch index is one-based. Use 1 for first batch, not 0.".

(** [bigsi.build] *)
Definition build (db : string) (bloomfilters samples : list string)
  (max_memory : string) (lowmem : bool) (i N : Z) : M value :=
  index <~ open db None None None ;;
  samples <~ lift (resolve_samples bloomfilters samples) ;;
  max_memory_bytes <~ lift (parse_max_memory max_memory) ;;
  _ <~ (if i <? 1
        then raise (ValueError one_based)
        else ret tt) ;;
  bf_range <~ lift (bf_range_calc index i N) ;;
  _ <~ (fun w => (Ok tt, print (show_pair bf_range) w)) ;;
  run index
    (cmds_build
       (mkBuildCall index bloomfilters samples max_memory_bytes lowmem
          bf_range)).

(** [bigsi.merge] *)
Definition merge (db1 db2 : string) : M value :=
  acceptor <~ open db1 None None None ;;
  donor <~ open db2 None None None ;;
  _ <~ merge_method acceptor donor ;;
  ret (VDict [("result",
               VStr ("merged " +:+ db2 +:+ " into " +:+ db1 +:+ "."))]).

(** [bigsi.search] *)
Definition search (g : Globals) (ps : Process) (a : SearchArgs) : M value :=
  let db := search_db g (sa_db a) in
  bigsi <~ open db (Some (sa_cachesize a)) (Some (sa_nproc a)) (Some "r") ;;
  let pipe_out := search_pipe_out (sa_output_format a) (sa_pipe_out a) in
  if search_no_input (sa_pipe_in a) (sa_seq a) (sa_seqfile a)
  then ret (VStr "-s or -f must be provided")
  else
    result <~
      (if search_from_stdin (sa_seq a) (sa_pipe_in a)
       then
         let fp := mkstemp ps in
         _ <~ (fun w => (Ok tt, write_file fp (stdin ps) w)) ;;
         run bigsi
           (cmds_search
              (mkSearchCall None (Some fp) (sa_threshold a) bigsi
                 (sa_output_format a) pipe_out (sa_score a)))
       else
         run bigsi
           (cmds_search
              (mkSearchCall (sa_seq a) (sa_seqfile a) (sa_threshold a) bigsi
                 (sa_output_format a) pipe_out (sa_score a)))) ;;
    if negb pipe_out then ret result else ret VNone.

End Methods.

End Bigsi.

(** ** [remcdbg/main.py] *)

Module Remcdbg.

(** [[env for env in os.environ if "REDIS" in env]]; only its length is
    used, so the order of the names does not matter. *)
Definition redis_envs (env : gmap string string) : list string :=
  List.filter (contains "REDIS") (fst <$> map_to_list env).

(** One turn of the loop that fills [CONN_CONFIG]: a missing port makes
    [int(None)] raise [TypeError]. *)
Definition conn_entry (env : gmap string string) (i : nat)
  : result (option string * Z) :=
  let hostname := env !! ("REDIS_IP_" +:+ pretty (Z.of_nat i + 1)) in
  port <- match env !! ("REDIS_PORT_" +:+ pretty (Z.of_nat i + 1)) with
          | Some s => int s
          | None => Raise TypeError
          end ;;
  Ok (hostname, port).

Definition CONN_CONFIG (env : gmap string string)
  : result (list (option string * Z)) :=
  let n := length (redis_envs env) in
  if (n =? 0)%nat then Ok [(Some "localhost", 6379)]
  else collect (conn_entry env <$> seq 0 (n / 2)).

(** The sub-command modules under [remcdbg.cmds], each exporting [run]. *)
Inductive subtool : Type :=
| Insert | Query | Stats | Samples | Kmers | Compress | Shutdown | Bitcount.

Definition module_name (t : subtool) : string :=
  match t with
  | Insert => "insert"
  | Query => "query"
  | Stats => "stats"
  | Samples => "samples"
  | Kmers => "kmers"
  | Compress => "compress"
  | Shutdown => "shutdown"
  | Bitcount => "bitcount"
  end.

(** [args.command == name] *)
Definition command_is (command : value) (name : string) : bool :=
  match command with
  | VStr s => String.eqb s name
  | _ => false
  end.

(** The [if]/[elif] chain of [run_subtool]: which module's [run] is bound
    once the chain is through, if any. *)
Definition select_run (command : value) : option subtool :=
  if command_is command "insert" then Some Insert
  else if command_is command "query" then Some Query
  else if command_is command "stats" then Some Stats
  else if command_is command "samples" then Some Samples
  else if command_is command "kmers" then Some Kmers
  else if command_is command "compress" then Some Compress
  else if command_is command "shutdown" then Some Shutdown
  else if command_is command "bitcount" then Some Bitcount
  else None.

Definition busy_message : string :=
  "Redis is loading the dataset in memory. Please try again when finished. ".

(** The [--threshold] option of the [query] sub-parser: [type=int],
    [default=100]. argparse turns a failed conversion into exit status 2. *)
Definition query_threshold (given : option string) : result Z :=
  match given with
  | None => Ok 100
  | Some s =>
      match int s with
      | Ok z => Ok z
      | Raise _ => Raise (SystemExit 2)
      end
  end.

Section Dispatch.

(** The argparse parser, the Redis instances behind the sub-commands, the
    [run] function of each sub-command module and the module-level
    [CONN_CONFIG]. *)
Variables (Parser Redis : Type).
Variable cmds_run :
  subtool -> Parser -> gmap string value -> list (option string * Z) ->
  Redis * list string -> result value * (Redis * list string).
Variable conn_config : list (option string * Z).

(** [run_subtool]; [args] is the argparse namespace, attribute by name.
    With no branch taken, [run] is an unbound local. *)
Definition run_subtool (parser : Parser) (args : gmap string value)
  (w : Redis * list string) : result value * (Redis * list string) :=
  match args !! "command" with
  | None => (Raise (AttributeError "command"), w)
  | Some command =>
      match select_run command with
      | None => (Raise (UnboundLocalError "run"), w)
      | Some tool =>
          match cmds_run tool parser args conn_config w with
          | (Raise BusyLoadingError, (redis, out)) =>
              (Ok VNone, (redis, out ++ [busy_message]))
          | (Raise e, w') => (Raise e, w')
          | (Ok _, w') => (Ok VNone, w')
          end
      end
  end.

End Dispatch.

End Remcdbg.

Import Bigsi.

(** ** Small indexes used to run the definitions

    The literal parameters of the specification's scenarios:
    [k = 3], [m = 16], [h = 2]. *)

Module Scenario.

Definition params (m : Z) : IndexParams := mkParams 3 m 2.

(** A handle on an index of width [m], opened without a mode. *)
Definition handle (m : Z) : Handle :=
  mkHandle "db" None None None (params m).

(** Index [A] holds sample [S1] in column 0 with rows 3 and 7 set; index
    [B] holds [S2] with rows 3 and 9 set after a tombstoned column. *)
Definition index_A : Index :=
  mkIndex (params 16) {[ 3 := [true]; 7 := [true] ]} [Live "S1"].

Definition index_B : Index :=
  mkIndex (params 16) {[ 3 := [false; true]; 9 := [false; true] ]}
    [Tombstoned; Live "S2"].

Definition world : World :=
  mkWorld {[ "A" := index_A; "B" := index_B; "./db" := index_A ]} ∅ [].

Definition process : Process :=
  mkProcess ∅ [">q"; "ACGT"] "/tmp/tmpq".

(** The module constants of a process with an empty environment. *)
Definition globals : Globals :=
  mkGlobals 25000000 3 "berkeleydb" "./db" 1.

(** [search(seq="ACGT", threshold=t, output_format=fmt)] and
    [search(output_format=fmt)], everything else left at its default. *)
Definition search_seq (t : Q) (fmt : string) : SearchArgs :=
  mkSearchArgs None (Some "ACGT") None t fmt false false 4 false 4.

Definition search_nothing (fmt : string) : SearchArgs :=
  mkSearchArgs None None None 1%Q fmt false false 4 false 4.

(** The object [search] gets when it opens ["./db"] in [world]. *)
Definition opened : Handle :=
  mkHandle "./db" (Some 4) (Some 4) (Some "r") (params 16).

(** Sub-commands that make their arguments visible. [search] reports the
    threshold and the pipe flag it was given and tries to empty the
    registry on the way; [build] registers its sample names. *)
Definition search_cmd (c : SearchCall) : prog value :=
  Do (PutRegistry [])
    (fun refused =>
       Ret (VList [VFloat (sc_threshold c); VBool (sc_pipe c);
                   VBool (match refused with
                          | Raise _ => true
                          | Ok _ => false
                          end)])).

Definition build_cmd (c : BuildCall) : prog value :=
  Do GetRegistry
    (fun reg =>
       Do (PutRegistry (reg ++ (Live <$> bu_samples c)))
         (fun _ => Ret (VList (VStr <$> bu_samples c)))).

Definition size_in_bytes (text : string) : result Z :=
  match int text with
  | Ok z => Ok z
  | Raise _ => Raise (InvalidSize text)
  end.

Definition commands : Commands :=
  mkCommands (fun _ => Ret VNone) (fun _ => Ret VNone) build_cmd search_cmd
    size_in_bytes.

End Scenario.

(** The text [bloom] answers with when it has nothing to read. *)
Definition bloom_message : string := "--kmers or --seqfile must be provided".

(** * Properties *)

(** ** Arithmetic of the batch computation *)

Lemma ceil_div_bounds (a b : Z) :
  0 < b -> b * (ceil_div a b - 1) < a <= b * ceil_div a b.
Proof.
  intros Hb. unfold ceil_div.
  pose proof (Z.div_mod (- a) b ltac:(lia)) as Hdm.
  pose proof (Z.mod_pos_bound (- a) b Hb) as Hmod.
  nia.
Qed.


Lemma ceil_div_pos (a b : Z) : 0 < b -> 0 < a -> 0 < ceil_div a b.
Proof. intros Hb Ha. pose proof (ceil_div_bounds a b Hb). nia. Qed.


(** [k * step < stop] exactly for the positions of [range(0, stop, step)]. *)
Lemma lt_ceil_div (k a b : Z) : 0 < b -> k < ceil_div a b <-> k * b < a.
Proof. intros Hb. pose proof (ceil_div_bounds a b Hb). nia. Qed.

Lemma range_length (stop step : Z) l :
  0 < step -> Py.range 0 stop step = Ok l ->
  length l = Z.to_nat (ceil_div stop step).
Proof.
  intros Hs. unfold Py.range, range_len.
  destruct (Z.eqb_spec step 0); [lia|].
  destruct (Z.ltb_spec 0 step); [|lia].
  intros [= <-]. rewrite length_fmap, length_seq. by rewrite Z.sub_0_r.
Qed.

Lemma range_lookup (stop step : Z) l (k : nat) :
  0 < step -> Py.range 0 stop step = Ok l ->
  (k < length l)%nat -> l !! k = Some (Z.of_nat k * step).
Proof.
  intros Hs Hr Hk. pose proof Hr as Hr'. unfold Py.range in Hr'.
  destruct (Z.eqb_spec step 0); [lia|]. injection Hr' as <-.
  rewrite length_fmap, length_seq in Hk.
  rewrite list_lookup_fmap, lookup_seq_lt by done. simpl. f_equal; lia.
Qed.

Lemma range_total (stop step : Z) :
  0 < step -> exists l, Py.range 0 stop step = Ok l.
Proof.
  intros Hs. unfold Py.range. destruct (Z.eqb_spec step 0); [lia|]. eauto.
Qed.

(** Indexing with a position inside the list. *)
Lemma getitem_inside {A} (l : list A) (k : Z) a :
  0 <= k -> l !! Z.to_nat k = Some a -> getitem l k = Ok a.
Proof.
  intros Hk Hl. unfold getitem.
  pose proof (lookup_lt_Some _ _ _ Hl) as Hlen.
  assert ((k <? 0) = false) as Hneg by (apply Z.ltb_ge; lia).
  assert ((Z.of_nat (length l) <=? k) = false) as Hin
    by (apply Z.leb_gt; lia).
  rewrite Hneg. cbv zeta. by rewrite Hneg, Hin, Hl.
Qed.

Lemma getitem_beyond {A} (l : list A) (k : Z) :
  Z.of_nat (length l) <= k -> getitem l k = Raise IndexError.
Proof.
  intros Hk. unfold getitem.
  assert ((k <? 0) = false) as Hneg by (apply Z.ltb_ge; lia).
  assert ((Z.of_nat (length l) <=? k) = true) as Hout
    by (apply Z.leb_le; lia).
  rewrite Hneg. cbv zeta. by rewrite Hneg, Hout.
Qed.

(** ** [bf_range_calc] on a positive width and a positive batch count *)

(** Batch [i >= 1] starts at [(i - 1) * batch_size] and is [batch_size]
    long; asking for a batch that starts at or beyond [m] raises
    [IndexError]. *)
Lemma bf_range_calc_spec (index : Handle) (i N : Z) :
  let m := bloom_filter_size (h_params index) in
  let batch_size := ceil_div m N in
  1 <= m -> 1 <= N -> 1 <= i ->
  bf_range_calc index i N =
    if (i - 1) * batch_size <? m
    then Ok ((i - 1) * batch_size, i * batch_size)
    else Raise IndexError.
Proof.
  intros m bs Hm HN Hi. unfold bf_range_calc. fold m. fold bs.
  destruct (Z.eqb_spec N 0); [lia|].
  assert (0 < bs) as Hbs by (apply ceil_div_pos; lia).
  destruct (range_total m bs Hbs) as [l Hl]. rewrite Hl. simpl.
  pose proof (range_length m bs l Hbs Hl) as Hlen.
  pose proof (ceil_div_pos m bs Hbs ltac:(lia)) as Hcnt.
  destruct (Z.ltb_spec ((i - 1) * bs) m) as [Hin|Hout].
  - apply (lt_ceil_div (i - 1) m bs Hbs) in Hin.
    rewrite (getitem_inside l (i - 1) ((i - 1) * bs)); [|lia|].
    + simpl. do 2 f_equal. lia.
    + rewrite (range_lookup m bs l _ Hbs Hl) by lia.
      f_equal. rewrite Z2Nat.id; lia.
  - rewrite getitem_beyond; [done|].
    assert (~ (i - 1 < ceil_div m bs)) by (rewrite lt_ceil_div; lia).
    lia.
Qed.


(** The bounds of the claim can only hold for the last batch when [N]
    divides [m]. *)
Lemma bf_range_calc_last_inside (index : Handle) (N s e : Z) :
  let m := bloom_filter_size (h_params index) in
  1 <= m -> 1 <= N ->
  bf_range_calc index N N = Ok (s, e) -> e <= m -> (N | m).
Proof.
  intros m Hm HN Hcalc He.
  rewrite bf_range_calc_spec in Hcalc by lia. fold m in Hcalc.
  destruct (Z.ltb_spec ((N - 1) * ceil_div m N) m); [|done].
  injection Hcalc as <- <-.
  pose proof (ceil_div_bounds m N ltac:(lia)).
  exists (ceil_div m N). lia.
Qed.




(** For [m = 5] and [N = 4] there are only three batches, and asking for
    the fourth raises [IndexError]. *)
Example bf_range_calc_missing_batch :
  bf_range_calc (Scenario.handle 5) 4 4 = Raise IndexError.
Proof. reflexivity. Qed.

(** A batch index below one wraps around: [i = 0] selects the last
    batch. *)
Example bf_range_calc_zero_wraps :
  bf_range_calc (Scenario.handle 16) 0 2 = Ok (8, 16).
Proof. reflexivity. Qed.

(** ** Opening an index and running programs on it *)

Lemma BIGSI_handle (w : World) db cachesize nproc mode h :
  BIGSI w db cachesize nproc mode = Ok h ->
  h = mkHandle db cachesize nproc mode (h_params h) /\
  exists idx, dbs w !! db = Some idx /\ h_params h = header idx.
Proof.
  unfold BIGSI. destruct (dbs w !! db) as [idx|]; [|done].
  intros [= <-]. eauto.
Qed.

(** A program run through a read-only handle cannot change the index it
    runs on, whatever it tries, nor any other database. *)
Lemma exec_read_only {A} (p : prog A) (idx : Index) (w : World) :
  (exec true p idx w).1.2 = idx /\ dbs (exec true p idx w).2 = dbs w.
Proof.
  revert idx w. induction p as [a|e|X o k IH]; intros idx w; [done..|].
  simpl. destruct o; simpl; try apply IH.
  all: edestruct IH as [Hidx Hdbs]; split; [exact Hidx|by rewrite Hdbs].
Qed.

Lemma run_read_only {A} (h : Handle) (p : prog A) (w : World) :
  read_only h = true -> dbs (run h p w).2 = dbs w.
Proof.
  intros Hro. unfold run.
  destruct (dbs w !! h_db h) as [idx|] eqn:Hidx; [|done].
  rewrite Hro. pose proof (exec_read_only p idx w) as [Hsame Hdbs].
  destruct (exec true p idx w) as [[r idx'] w']. simpl in *. subst idx'.
  rewrite Hdbs. by apply insert_id.
Qed.

(** ** [search] *)

Section Search.
Context {C : Commands}.
Variables (g : Globals) (ps : Process) (a : SearchArgs) (w : World).

(** When the index cannot be opened, [search] ends there. *)
Lemma search_not_opened e :
  BIGSI w (search_db g (sa_db a)) (Some (sa_cachesize a))
    (Some (sa_nproc a)) (Some "r") = Raise e ->
  search g ps a w = (Raise e, w).
Proof. intros Hopen. unfold search, mbind, open. by rewrite Hopen. Qed.

(** With nothing to search for, [search] answers with the message. *)
Lemma search_without_input bigsi :
  BIGSI w (search_db g (sa_db a)) (Some (sa_cachesize a))
    (Some (sa_nproc a)) (Some "r") = Ok bigsi ->
  search_no_input (sa_pipe_in a) (sa_seq a) (sa_seqfile a) = true ->
  search g ps a w = (Ok (VStr "-s or -f must be provided"), w).
Proof.
  intros Hopen Hnone. unfold search, mbind, open. by rewrite Hopen, Hnone.
Qed.

(** Otherwise one call of the search sub-command is run on the opened
    index, on the temporary file filled from standard input or on the
    caller's sequence and file, and its value is returned unless the
    output is piped. *)
Lemma search_query bigsi :
  BIGSI w (search_db g (sa_db a)) (Some (sa_cachesize a))
    (Some (sa_nproc a)) (Some "r") = Ok bigsi ->
  search_no_input (sa_pipe_in a) (sa_seq a) (sa_seqfile a) = false ->
  let pipe_out := search_pipe_out (sa_output_format a) (sa_pipe_out a) in
  let from_stdin := search_from_stdin (sa_seq a) (sa_pipe_in a) in
  let call :=
    if from_stdin
    then mkSearchCall None (Some (mkstemp ps)) (sa_threshold a) bigsi
           (sa_output_format a) pipe_out (sa_score a)
    else mkSearchCall (sa_seq a) (sa_seqfile a) (sa_threshold a) bigsi
           (sa_output_format a) pipe_out (sa_score a) in
  let w1 := if from_stdin then write_file (mkstemp ps) (stdin ps) w else w in
  search g ps a w =
    match run bigsi (cmds_search call) w1 with
    | (Ok result, w2) => (Ok (if pipe_out then VNone else result), w2)
    | (Raise e, w2) => (Raise e, w2)
    end.
Proof.
  intros Hopen Hinput pipe_out from_stdin call w1.
  unfold search, mbind, open. rewrite Hopen, Hinput.
  fold pipe_out. fold from_stdin. subst call w1.
  destruct from_stdin; simpl.
  - destruct (run bigsi _ _) as [[result|e] w2]; [|done].
    by destruct pipe_out.
  - destruct (run bigsi _ _) as [[result|e] w2]; [|done].
    by destruct pipe_out.
Qed.

End Search.

(** C5: [search] opens the index with [mode="r"], the handle it gives to
    the search sub-command is that read-only one, and whatever the
    sub-command does, the databases (header, row store and sample registry
    of every index) are after the search what they were before. *)
Theorem search_leaves_index_unchanged {C : Commands} (g : Globals)
  (ps : Process) (a : SearchArgs) (w : World) :
  dbs (search g ps a w).2 = dbs w /\
  forall bigsi,
    BIGSI w (search_db g (sa_db a)) (Some (sa_cachesize a))
      (Some (sa_nproc a)) (Some "r") = Ok bigsi ->
    search_no_input (sa_pipe_in a) (sa_seq a) (sa_seqfile a) = false ->
    exists call w1,
      sc_graph call = bigsi /\ h_mode bigsi = Some "r" /\
      read_only (sc_graph call) = true /\
      search g ps a w =
        match run (sc_graph call) (cmds_search call) w1 with
        | (Ok result, w2) =>
            (Ok (if search_pipe_out (sa_output_format a) (sa_pipe_out a)
                 then VNone else result), w2)
        | (Raise e, w2) => (Raise e, w2)
        end.
Proof.
  assert (forall bigsi,
    BIGSI w (search_db g (sa_db a)) (Some (sa_cachesize a))
      (Some (sa_nproc a)) (Some "r") = Ok bigsi ->
    h_mode bigsi = Some "r" /\ read_only bigsi = true) as Hmode.
  { intros bigsi Hopen. apply BIGSI_handle in Hopen as [-> _]. done. }
  split.
  - destruct (BIGSI w (search_db g (sa_db a)) (Some (sa_cachesize a))
                (Some (sa_nproc a)) (Some "r")) as [bigsi|e] eqn:Hopen.
    + destruct (Hmode bigsi eq_refl) as [_ Hro].
      destruct (search_no_input (sa_pipe_in a) (sa_seq a) (sa_seqfile a))
        eqn:Hinput.
      * by rewrite (search_without_input g ps a w bigsi).
      * rewrite (search_query g ps a w bigsi Hopen Hinput).
        match goal with
        | |- context [run bigsi ?p ?w1] =>
            pose proof (run_read_only bigsi p w1 Hro) as Hrun;
            destruct (run bigsi p w1) as [[result|e] w2]
        end.
        all: simpl in *; rewrite Hrun; by destruct search_from_stdin.
    + by rewrite (search_not_opened g ps a w e).
  - intros bigsi Hopen Hinput. destruct (Hmode bigsi Hopen) as [Hm Hro].
    pose proof (search_query g ps a w bigsi Hopen Hinput) as Hq.
    cbv zeta in Hq.
    destruct (search_from_stdin (sa_seq a) (sa_pipe_in a)).
    all: eexists (mkSearchCall _ _ _ bigsi _ _ _), _; simpl.
    all: split; [done|split; [done|split; [done|exact Hq]]].
Qed.

Lemma search_leaves_index_unchanged_witness :
  let C := Scenario.commands in
  let a := Scenario.search_seq 1%Q "json" in
  dbs (search Scenario.globals Scenario.process a Scenario.world).2
    = dbs Scenario.world /\
  exists call w1,
    sc_graph call = Scenario.opened /\
    read_only (sc_graph call) = true /\
    search Scenario.globals Scenario.process a Scenario.world =
      match run (sc_graph call) (cmds_search call) w1 with
      | (Ok result, w2) => (Ok result, w2)
      | (Raise e, w2) => (Raise e, w2)
      end.
Proof.
  intros C a.
  destruct (search_leaves_index_unchanged (C := C)
              Scenario.globals Scenario.process a Scenario.world)
    as [Hsame Hcall].
  split; [exact Hsame|].
  destruct (Hcall Scenario.opened eq_refl eq_refl)
    as (call & w1 & Hgraph & _ & Hro & Hsearch).
  exists call, w1. repeat split; assumption.
Defined.

(** ** The threshold *)

(** C2: the threshold of [search] is a float that defaults to [1.0]
    (exact containment). [search] does not check its range: whenever there
    is something to search for, the value it was given is the threshold of
    the call to the search sub-command, unchanged. The [--threshold] of the
    [remcdbg] query parser is an integer percentage that defaults to 100. *)
Theorem search_threshold_forwarded {C : Commands} (g : Globals)
  (ps : Process) (a : SearchArgs) (w : World) (bigsi : Handle) :
  BIGSI w (search_db g (sa_db a)) (Some (sa_cachesize a))
    (Some (sa_nproc a)) (Some "r") = Ok bigsi ->
  search_no_input (sa_pipe_in a) (sa_seq a) (sa_seqfile a) = false ->
  sa_threshold search_defaults = 1%Q /\
  Remcdbg.query_threshold None = Ok 100 /\
  exists call w1,
    sc_threshold call = sa_threshold a /\
    search g ps a w =
      match run bigsi (cmds_search call) w1 with
      | (Ok result, w2) =>
          (Ok (if search_pipe_out (sa_output_format a) (sa_pipe_out a)
               then VNone else result), w2)
      | (Raise e, w2) => (Raise e, w2)
      end.
Proof.
  intros Hopen Hinput. split; [done|]. split; [done|].
  pose proof (search_query g ps a w bigsi Hopen Hinput) as Hq.
  cbv zeta in Hq.
  destruct (search_from_stdin (sa_seq a) (sa_pipe_in a)).
  all: eexists (mkSearchCall _ _ (sa_threshold a) _ _ _ _), _.
  all: split; [done|exact Hq].
Qed.

Lemma search_threshold_forwarded_witness :
  let C := Scenario.commands in
  let a := Scenario.search_seq (1 # 2) "json" in
  exists call w1,
    sc_threshold call = (1 # 2)%Q /\
    search Scenario.globals Scenario.process a Scenario.world =
      match run Scenario.opened (cmds_search call) w1 with
      | (Ok result, w2) => (Ok result, w2)
      | (Raise e, w2) => (Raise e, w2)
      end.
Proof.
  intros C a.
  destruct (search_threshold_forwarded (C := C) Scenario.globals
              Scenario.process a Scenario.world Scenario.opened
              eq_refl eq_refl)
    as (_ & _ & call & w1 & Hthreshold & Hsearch).
  exists call, w1. split; assumption.
Defined.

(** A threshold of 2 is taken as it is: the search sub-command runs and
    reports the threshold 2 it was called with. The default of the
    [remcdbg] query parser, 100, is outside [[0, 1]] as well. *)
Lemma search_accepts_threshold_two :
  let C := Scenario.commands in
  (search Scenario.globals Scenario.process (Scenario.search_seq 2 "json")
     Scenario.world).1
    = Ok (VList [VFloat 2; VBool false; VBool true]) /\
  ~ (0 <= 2 <= 1)%Q /\
  Remcdbg.query_threshold None = Ok 100 /\
  ~ (0 <= 100 <= 1).
Proof.
  intros C. split; [vm_compute; reflexivity|].
  split; [|split; [reflexivity|lia]].
  intros [_ Hle]. vm_compute in Hle. by apply Hle.
Qed.

(** ** Where the defaults come from *)

(** C6: the module constants are read from the environment when the
    module is loaded: [BDB_DB_FILENAME] is the variable of that name or
    ["./db"], [BFSIZE] and [NUM_HASHES] are the integers of the variables
    of those names or 25000000 and 3. [search] called with [db = None]
    opens the index at the path [BDB_DB_FILENAME]: when the index at that
    path cannot be opened the call ends in the constructor's error, and
    when it can, the handle on that path is the one the search runs on;
    the call is the call with [db = BDB_DB_FILENAME]. *)
Theorem defaults_from_environment {C : Commands}
  (env : gmap string string) (g : Globals) (ps : Process) (a : SearchArgs)
  (w : World) :
  load_module env = Ok g ->
  BDB_DB_FILENAME g = default "./db" (env !! "BDB_DB_FILENAME") /\
  match env !! "BFSIZE" with
  | Some text => int text = Ok (BFSIZE g)
  | None => BFSIZE g = 25000000
  end /\
  match env !! "NUM_HASHES" with
  | Some text => int text = Ok (NUM_HASHES g)
  | None => NUM_HASHES g = 3
  end /\
  (sa_db a = None ->
   search_db g (sa_db a) = BDB_DB_FILENAME g /\
   search g ps a w =
     search g ps
       (mkSearchArgs (Some (BDB_DB_FILENAME g)) (sa_seq a) (sa_seqfile a)
          (sa_threshold a) (sa_output_format a) (sa_pipe_out a)
          (sa_pipe_in a) (sa_cachesize a) (sa_score a) (sa_nproc a)) w /\
   (forall e,
      BIGSI w (BDB_DB_FILENAME g) (Some (sa_cachesize a))
        (Some (sa_nproc a)) (Some "r") = Raise e ->
      search g ps a w = (Raise e, w)) /\
   (forall bigsi,
      BIGSI w (BDB_DB_FILENAME g) (Some (sa_cachesize a))
        (Some (sa_nproc a)) (Some "r") = Ok bigsi ->
      h_db bigsi = BDB_DB_FILENAME g /\
      is_Some (dbs w !! BDB_DB_FILENAME g) /\
      (search_no_input (sa_pipe_in a) (sa_seq a) (sa_seqfile a) = false ->
       exists call w1,
         sc_graph call = bigsi /\
         h_db (sc_graph call) = BDB_DB_FILENAME g /\
         search g ps a w =
           match run bigsi (cmds_search call) w1 with
           | (Ok result, w2) =>
               (Ok (if search_pipe_out (sa_output_format a) (sa_pipe_out a)
                    then VNone else result), w2)
           | (Raise e, w2) => (Raise e, w2)
           end))).
Proof.
  intros Hload.
  assert (BDB_DB_FILENAME g = default "./db" (env !! "BDB_DB_FILENAME") /\
          match env !! "BFSIZE" with
          | Some text => int text = Ok (BFSIZE g)
          | None => BFSIZE g = 25000000
          end /\
          match env !! "NUM_HASHES" with
          | Some text => int text = Ok (NUM_HASHES g)
          | None => NUM_HASHES g = 3
          end) as (Hdb & Hbf & Hnh).
  { unfold load_module, environ_int, environ_get in Hload.
    destruct (env !! "BFSIZE") as [bf|];
      [destruct (int bf) as [bfsize|] eqn:Hbf; [|done]|];
      (destruct (env !! "NUM_HASHES") as [nh|];
         [destruct (int nh) as [hashes|] eqn:Hnh; [|done]|]);
      simpl in Hload;
      (destruct (match env !! "CACHESIZE" with
                 | Some s => int s | None => Ok 1 end) as [cs|];
         [|done]);
      injection Hload as <-; simpl; done. }
  split; [exact Hdb|]. split; [exact Hbf|]. split; [exact Hnh|].
  intros Hnone.
  assert (search_db g (sa_db a) = BDB_DB_FILENAME g) as Hpath
    by (by rewrite Hnone).
  split; [exact Hpath|]. split.
  { unfold search. simpl. by rewrite Hnone. }
  split.
  - intros e Hopen. apply search_not_opened. by rewrite Hpath.
  - intros bigsi Hopen.
    destruct (BIGSI_handle _ _ _ _ _ _ Hopen) as [Hshape (idx & Hidx & _)].
    assert (h_db bigsi = BDB_DB_FILENAME g) as Hat by (by rewrite Hshape).
    split; [exact Hat|]. split; [by exists idx|].
    intros Hinput. rewrite <- Hpath in Hopen.
    pose proof (search_query g ps a w bigsi Hopen Hinput) as Hq.
    cbv zeta in Hq.
    destruct (search_from_stdin (sa_seq a) (sa_pipe_in a)).
    all: eexists (mkSearchCall _ _ _ bigsi _ _ _), _; simpl.
    all: split; [done|split; [exact Hat|exact Hq]].
Qed.

Lemma defaults_from_environment_witness :
  let C := Scenario.commands in
  let env : gmap string string :=
    {[ "BFSIZE" := "16"; "BDB_DB_FILENAME" := "A" ]} in
  let g := mkGlobals 16 3 "berkeleydb" "A" 1 in
  let a := Scenario.search_seq 1%Q "json" in
  let opened := mkHandle "A" (Some 4) (Some 4) (Some "r")
                  (Scenario.params 16) in
  load_module env = Ok g /\
  BDB_DB_FILENAME g = "A" /\ int "16" = Ok (BFSIZE g) /\ NUM_HASHES g = 3 /\
  exists call w1,
    sc_graph call = opened /\ h_db (sc_graph call) = "A" /\
    search g Scenario.process a Scenario.world =
      match run opened (cmds_search call) w1 with
      | (Ok result, w2) => (Ok result, w2)
      | (Raise e, w2) => (Raise e, w2)
      end.
Proof.
  intros C env g a opened.
  assert (load_module env = Ok g) as Hload by (vm_compute; reflexivity).
  split; [exact Hload|].
  destruct (defaults_from_environment (C := C) env g Scenario.process a
              Scenario.world Hload)
    as (Hdb & Hbf & Hnh & Hsearch).
  split; [exact Hdb|]. split; [exact Hbf|]. split; [exact Hnh|].
  destruct (Hsearch eq_refl) as (_ & _ & _ & Hopened).
  destruct (Hopened opened eq_refl) as (_ & _ & Hcall).
  destruct (Hcall eq_refl) as (call & w1 & Hgraph & Hat & Hrun).
  exists call, w1. split; [exact Hgraph|]. split; [exact Hat|exact Hrun].
Defined.

(** With [BDB_DB_FILENAME] naming a path without an index, a [search]
    with [db = None] fails on that path. *)
Example search_default_path_missing :
  let C := Scenario.commands in
  search (mkGlobals 16 3 "berkeleydb" "nowhere" 1) Scenario.process
    (Scenario.search_seq 1 "json") Scenario.world
    = (Raise (ValueError "no index at nowhere"), Scenario.world).
Proof. vm_compute. reflexivity. Qed.

(** With an empty environment the constants are the literal defaults. *)
Example load_module_empty : load_module ∅ = Ok Scenario.globals.
Proof. reflexivity. Qed.

(** The constants are fixed at load time; text that is not an integer
    makes the load itself fail. *)
Example load_module_bad_width :
  load_module {[ "BFSIZE" := "wide" ]}
    = Raise (ValueError "invalid literal for int() with base 10: wide").
Proof. vm_compute. reflexivity. Qed.

(** ** What [search] hands back *)

(** C9: an output format of ["tsv"] or ["fasta"] forces [pipe_out] to
    true. When the index opens and there is something to search for, the
    search sub-command is called with that flag, and [search] returns
    [None] if the flag is true and the sub-command's result if it is
    false. *)
Theorem search_piped_returns_none {C : Commands} (g : Globals)
  (ps : Process) (a : SearchArgs) (w : World) (bigsi : Handle) :
  BIGSI w (search_db g (sa_db a)) (Some (sa_cachesize a))
    (Some (sa_nproc a)) (Some "r") = Ok bigsi ->
  search_no_input (sa_pipe_in a) (sa_seq a) (sa_seqfile a) = false ->
  (sa_output_format a ∈ ["tsv"; "fasta"] ->
   search_pipe_out (sa_output_format a) (sa_pipe_out a) = true) /\
  (sa_output_format a ∉ ["tsv"; "fasta"] ->
   search_pipe_out (sa_output_format a) (sa_pipe_out a) = sa_pipe_out a) /\
  exists call w1,
    sc_pipe call = search_pipe_out (sa_output_format a) (sa_pipe_out a) /\
    search g ps a w =
      match run bigsi (cmds_search call) w1 with
      | (Ok result, w2) => (Ok (if sc_pipe call then VNone else result), w2)
      | (Raise e, w2) => (Raise e, w2)
      end.
Proof.
  intros Hopen Hinput. unfold search_pipe_out at 1 2.
  split; [intros Hfmt; by rewrite bool_decide_eq_true_2|].
  split; [intros Hfmt; by rewrite bool_decide_eq_false_2|].
  pose proof (search_query g ps a w bigsi Hopen Hinput) as Hq.
  cbv zeta in Hq.
  destruct (search_from_stdin (sa_seq a) (sa_pipe_in a)).
  all: eexists (mkSearchCall _ _ _ _ _
                  (search_pipe_out (sa_output_format a) (sa_pipe_out a)) _), _.
  all: split; [done|exact Hq].
Qed.

Lemma search_piped_returns_none_witness :
  let C := Scenario.commands in
  let a := Scenario.search_seq 1%Q "tsv" in
  search_pipe_out (sa_output_format a) (sa_pipe_out a) = true /\
  (search Scenario.globals Scenario.process a Scenario.world).1 = Ok VNone.
Proof.
  intros C a.
  destruct (search_piped_returns_none (C := C) Scenario.globals
              Scenario.process a Scenario.world Scenario.opened
              eq_refl eq_refl)
    as (Hforced & _ & call & w1 & Hpipe & Hsearch).
  split; [apply Hforced; vm_compute; left|].
  vm_compute. reflexivity.
Defined.

(** With the ["tsv"] format and nothing to search for, [search] returns
    the message text, not [None]. *)
Lemma search_tsv_returns_message :
  let C := Scenario.commands in
  let a := Scenario.search_nothing "tsv" in
  sa_output_format a = "tsv" /\
  search_pipe_out (sa_output_format a) (sa_pipe_out a) = true /\
  (search Scenario.globals Scenario.process a Scenario.world).1
    = Ok (VStr "-s or -f must be provided") /\
  (search Scenario.globals Scenario.process a Scenario.world).1 <> Ok VNone.
Proof.
  intros C a. split; [reflexivity|]. split; [reflexivity|].
  assert ((search Scenario.globals Scenario.process a Scenario.world).1
          = Ok (VStr "-s or -f must be provided")) as Hmsg
    by (vm_compute; reflexivity).
  split; [exact Hmsg|]. rewrite Hmsg. discriminate.
Qed.

(** The default ["json"] format without piping returns what the search
    sub-command returned. *)
Example search_json_returns_result :
  let C := Scenario.commands in
  (search Scenario.globals Scenario.process (Scenario.search_seq 1 "json")
     Scenario.world).1
    = Ok (VList [VFloat 1; VBool false; VBool true]).
Proof. vm_compute. reflexivity. Qed.

(** ** Nothing to work on *)

Lemma bloom_without_input {C : Commands} (outfile db : string)
  (kmers seqfile ctx : option string) (N : Z) (w : World) (index : Handle) :
  BIGSI w db None None (Some "r") = Ok index ->
  truthy ctx = false -> truthy kmers = false -> truthy seqfile = false ->
  bloom outfile db kmers seqfile ctx N w
    = (Ok (VStr "--kmers or --seqfile must be provided"), w).
Proof.
  intros Hopen Hctx Hkmers Hfile. unfold bloom, mbind, open.
  rewrite Hopen, Hctx, Hfile.
  assert (kmers_truthy (KmersGiven <$> kmers) = false) as ->; [|done].
  by destruct kmers.
Qed.

(** C10: once its index has been opened, [search] with [pipe_in] false
    and neither [seq] nor [seqfile] runs no search sub-command, changes
    nothing and returns the text ["-s or -f must be provided"] rather
    than raising; [bloom] with no [ctx], no [kmers] and no [seqfile]
    likewise returns ["--kmers or --seqfile must be provided"]. *)
Theorem missing_input_messages {C : Commands} (g : Globals) (ps : Process)
  (a : SearchArgs) (w : World) (bigsi index : Handle)
  (outfile db : string) (kmers seqfile ctx : option string) (N : Z) :
  (BIGSI w (search_db g (sa_db a)) (Some (sa_cachesize a))
     (Some (sa_nproc a)) (Some "r") = Ok bigsi ->
   sa_pipe_in a = false ->
   truthy (sa_seq a) = false -> truthy (sa_seqfile a) = false ->
   search g ps a w = (Ok (VStr "-s or -f must be provided"), w)) /\
  (BIGSI w db None None (Some "r") = Ok index ->
   truthy ctx = false -> truthy kmers = false -> truthy seqfile = false ->
   bloom outfile db kmers seqfile ctx N w
     = (Ok (VStr "--kmers or --seqfile must be provided"), w)).
Proof.
  split.
  - intros Hopen Hin Hseq Hfile.
    apply (search_without_input g ps a w bigsi Hopen).
    unfold search_no_input. by rewrite Hin, Hseq, Hfile.
  - apply bloom_without_input.
Qed.

Lemma missing_input_messages_witness :
  let C := Scenario.commands in
  search Scenario.globals Scenario.process (Scenario.search_nothing "json")
    Scenario.world
    = (Ok (VStr "-s or -f must be provided"), Scenario.world) /\
  bloom "out.bloom" "A" None (Some "") None 1 Scenario.world
    = (Ok (VStr "--kmers or --seqfile must be provided"), Scenario.world).
Proof.
  intros C.
  destruct (missing_input_messages (C := C) Scenario.globals
              Scenario.process (Scenario.search_nothing "json")
              Scenario.world Scenario.opened
              (mkHandle "A" None None (Some "r") (Scenario.params 16))
              "out.bloom" "A" None (Some "") None 1)
    as [Hsearch Hbloom].
  split.
  - apply Hsearch; reflexivity.
  - apply Hbloom; reflexivity.
Defined.

(** Both methods construct the index object before they look at their
    input: on a path without an index, [search] and [bloom] with nothing
    to work on raise the constructor's error and return no message. *)
Lemma missing_input_on_missing_index :
  let C := Scenario.commands in
  let a := Scenario.search_nothing "json" in
  let w := mkWorld ∅ ∅ [] in
  sa_pipe_in a = false /\ sa_seq a = None /\ sa_seqfile a = None /\
  search Scenario.globals Scenario.process a w
    = (Raise (ValueError "no index at ./db"), w) /\
  (search Scenario.globals Scenario.process a w).1
    <> Ok (VStr "-s or -f must be provided") /\
  bloom "out.bloom" DEFUALT_DB_DIRECTORY None None None 1 w
    = (Raise (ValueError "no index at ./db-bigsi/"), w) /\
  (bloom "out.bloom" DEFUALT_DB_DIRECTORY None None None 1 w).1
    <> Ok (VStr "--kmers or --seqfile must be provided").
Proof.
  intros C a w. split; [reflexivity|]. split; [reflexivity|].
  split; [reflexivity|].
  assert (search Scenario.globals Scenario.process a w
          = (Raise (ValueError "no index at ./db"), w)) as Hsearch
    by (vm_compute; reflexivity).
  assert (bloom "out.bloom" DEFUALT_DB_DIRECTORY None None None 1 w
          = (Raise (ValueError "no index at ./db-bigsi/"), w)) as Hbloom
    by (vm_compute; reflexivity).
  split; [exact Hsearch|]. split; [rewrite Hsearch; discriminate|].
  split; [exact Hbloom|]. rewrite Hbloom. discriminate.
Qed.

(** ** [build] *)

(** [build] step by step: open, settle the sample names, parse the memory
    cap, check the batch index, compute the row range, print it, and run
    the build sub-command. *)
Lemma build_steps {C : Commands} (db : string)
  (bloomfilters samples : list string) (max_memory : string) (lowmem : bool)
  (i N : Z) (w : World) :
  build db bloomfilters samples max_memory lowmem i N w =
    match BIGSI w db None None None with
    | Raise e => (Raise e, w)
    | Ok index =>
        match resolve_samples bloomfilters samples with
        | Raise e => (Raise e, w)
        | Ok names =>
            match parse_max_memory max_memory with
            | Raise e => (Raise e, w)
            | Ok bytes =>
                if i <? 1 then (Raise (ValueError one_based), w)
                else
                  match bf_range_calc index i N with
                  | Raise e => (Raise e, w)
                  | Ok bf_range =>
                      run index
                        (cmds_build
                           (mkBuildCall index bloomfilters names bytes
                              lowmem bf_range))
                        (print (show_pair bf_range) w)
                  end
            end
        end
    end.
Proof.
  unfold build, mbind, open, lift, raise, ret.
  destruct (BIGSI w db None None None) as [index|]; [|done].
  destruct (resolve_samples bloomfilters samples) as [names|]; [|done].
  destruct (parse_max_memory max_memory) as [bytes|]; [|done].
  destruct (i <? 1); [done|].
  by destruct (bf_range_calc index i N) as [bf_range|].
Qed.

Lemma resolve_samples_paths (bloomfilters : list string) :
  resolve_samples bloomfilters bloomfilters = Ok bloomfilters.
Proof.
  destruct bloomfilters as [|b bs]; [done|].
  unfold resolve_samples. by rewrite bool_decide_eq_true_2.
Qed.

(** C3: with an empty sample-name list, the names [build] settles on are
    the Bloom filter paths, in their order; the whole call behaves as the
    call with [samples = bloomfilters], and when it gets to the build
    sub-command it passes the paths as the sample names. *)
Theorem build_samples_default {C : Commands} (db : string)
  (bloomfilters : list string) (max_memory : string) (lowmem : bool)
  (i N : Z) (w : World) :
  resolve_samples bloomfilters [] = Ok bloomfilters /\
  build db bloomfilters [] max_memory lowmem i N w
    = build db bloomfilters bloomfilters max_memory lowmem i N w /\
  forall index bytes bf_range,
    BIGSI w db None None None = Ok index ->
    parse_max_memory max_memory = Ok bytes ->
    1 <= i ->
    bf_range_calc index i N = Ok bf_range ->
    build db bloomfilters [] max_memory lowmem i N w =
      run index
        (cmds_build
           (mkBuildCall index bloomfilters bloomfilters bytes lowmem
              bf_range))
        (print (show_pair bf_range) w).
Proof.
  split; [done|]. split.
  - rewrite !build_steps. by rewrite resolve_samples_paths.
  - intros index bytes bf_range Hopen Hbytes Hi Hrange.
    rewrite build_steps, Hopen, Hbytes, Hrange. simpl.
    by destruct (Z.ltb_spec i 1); [lia|].
Qed.

Lemma build_samples_default_witness :
  let C := Scenario.commands in
  let index := mkHandle "A" None None None (Scenario.params 16) in
  build "A" ["x.bloom"; "y.bloom"] [] "" false 1 1 Scenario.world =
    run index
      (cmds_build
         (mkBuildCall index ["x.bloom"; "y.bloom"] ["x.bloom"; "y.bloom"]
            None false (0, 16)))
      (print "(0, 16)" Scenario.world).
Proof.
  intros C index.
  destruct (build_samples_default (C := C) "A" ["x.bloom"; "y.bloom"] ""
              false 1 1 Scenario.world) as (_ & _ & Hcall).
  apply (Hcall index None (0, 16)); [reflexivity|reflexivity|lia|reflexivity].
Defined.

(** The paths end up in the registry of the index [build] ran on. *)
Example build_registers_paths :
  let C := Scenario.commands in
  let '(r, w') :=
    build "A" ["x.bloom"; "y.bloom"] [] "" false 1 1 Scenario.world in
  r = Ok (VList [VStr "x.bloom"; VStr "y.bloom"]) /\
  registry <$> dbs w' !! "A"
    = Some [Live "S1"; Live "x.bloom"; Live "y.bloom"] /\
  stdout w' = ["(0, 16)"].
Proof. vm_compute. repeat split; reflexivity. Qed.

(** C8: a [build] with batch index [i < 1] always ends in an error
    before the row range is computed and before the build sub-command
    runs, and leaves the databases and everything else as they were. The
    error is [ValueError("Batch index is one-based. ...")] whenever the
    call gets as far as the batch-index check: the index opens, the
    sample names are absent or as many as the Bloom filters, and
    [max_memory] is empty or parses. *)
Theorem build_rejects_batch_below_one {C : Commands} (db : string)
  (bloomfilters samples : list string) (max_memory : string) (lowmem : bool)
  (i N : Z) (w : World) :
  i < 1 ->
  (exists e, build db bloomfilters samples max_memory lowmem i N w
             = (Raise e, w)) /\
  forall index names bytes,
    BIGSI w db None None None = Ok index ->
    resolve_samples bloomfilters samples = Ok names ->
    parse_max_memory max_memory = Ok bytes ->
    build db bloomfilters samples max_memory lowmem i N w
      = (Raise (ValueError one_based), w).
Proof.
  intros Hi. rewrite build_steps.
  assert ((i <? 1) = true) as Hlt by (apply Z.ltb_lt; lia).
  split.
  - destruct (BIGSI w db None None None) as [index|e]; [|by eexists].
    destruct (resolve_samples bloomfilters samples) as [names|e];
      [|by eexists].
    destruct (parse_max_memory max_memory) as [bytes|e]; [|by eexists].
    rewrite Hlt. by eexists.
  - intros index names bytes -> -> ->. by rewrite Hlt.
Qed.

Lemma build_rejects_batch_below_one_witness :
  let C := Scenario.commands in
  build "A" ["x.bloom"] [] "" false 0 1 Scenario.world
    = (Raise (ValueError one_based), Scenario.world).
Proof.
  intros C.
  destruct (build_rejects_batch_below_one (C := C) "A" ["x.bloom"] [] ""
              false 0 1 Scenario.world ltac:(lia)) as [_ Hvalue].
  apply (Hvalue (mkHandle "A" None None None (Scenario.params 16))
           ["x.bloom"] None); reflexivity.
Defined.

(** With one sample name for two Bloom filters, the assertion on the
    lengths fails first: a [build] with [i = 0] raises [AssertionError],
    not [ValueError]. *)
Lemma build_assertion_comes_first :
  let C := Scenario.commands in
  0 < 1 /\
  build "A" ["x.bloom"; "y.bloom"] ["s"] "" false 0 1 Scenario.world
    = (Raise AssertionError, Scenario.world) /\
  (build "A" ["x.bloom"; "y.bloom"] ["s"] "" false 0 1 Scenario.world).1
    <> Raise (ValueError one_based).
Proof.
  intros C. split; [lia|].
  assert (build "A" ["x.bloom"; "y.bloom"] ["s"] "" false 0 1 Scenario.world
          = (Raise AssertionError, Scenario.world)) as Hbuild
    by (vm_compute; reflexivity).
  split; [exact Hbuild|]. rewrite Hbuild. discriminate.
Qed.

(** ** [merge] *)

Lemma read_row_length (idx : Index) (r : Z) :
  length (read_row idx r) = length (registry idx).
Proof.
  unfold read_row. rewrite length_take, length_app, length_replicate. lia.
Qed.

Lemma fst_tagged {A} (f : Z -> A) (l : list Z) :
  ((fun r => (r, f r)) <$> l).*1 = l.
Proof. induction l as [|r l IH]; [done|]. csimpl. by rewrite IH. Qed.

(** The rows of a merged index, key by key. *)
Lemma merge_index_rows (acceptor donor merged : Index) (r : Z) :
  merge_index acceptor donor = Ok merged ->
  0 <= r < bloom_filter_size (header acceptor) ->
  rows merged !! r = Some (read_row acceptor r ++ read_row donor r).
Proof.
  unfold merge_index. case_bool_decide; [|done]. simpl.
  intros [= <-] Hr. simpl.
  apply elem_of_list_to_map_1.
  - rewrite fst_tagged. apply NoDup_seqZ.
  - apply list_elem_of_fmap. exists r. split; [done|].
    apply elem_of_seqZ. lia.
Qed.

Lemma merge_index_registry (acceptor donor merged : Index) :
  merge_index acceptor donor = Ok merged ->
  header merged = header acceptor /\
  registry merged = registry acceptor ++ registry donor.
Proof.
  unfold merge_index. case_bool_decide; [|done]. by intros [= <-].
Qed.

(** Reading a row of the merged index gives the acceptor's columns
    followed by the donor's. *)
Lemma merge_index_read_row (acceptor donor merged : Index) (r : Z) :
  merge_index acceptor donor = Ok merged ->
  0 <= r < bloom_filter_size (header acceptor) ->
  read_row merged r = read_row acceptor r ++ read_row donor r.
Proof.
  intros Hmerge Hr.
  pose proof (merge_index_rows _ _ _ r Hmerge Hr) as Hrow.
  destruct (merge_index_registry _ _ _ Hmerge) as [_ Hreg].
  unfold read_row at 1. rewrite Hrow, Hreg. simpl.
  rewrite !length_app, !read_row_length, Nat.sub_diag. simpl.
  rewrite app_nil_r. apply take_ge.
  rewrite !length_app, !read_row_length. lia.
Qed.

(** C4: in [merge(db1, db2)] the index at [db1] is the acceptor and the
    index at [db2] the donor: the front end opens both and calls the merge
    method of the [db1] object with the [db2] object. With both indexes
    present and their parameters equal, the index at [db1] afterwards has
    the acceptor's columns followed by the donor's in the registry and in
    every row of [[0, m)], so donor column [c] is column [n_a + c]; no
    other database changes; and the value returned is
    [{"result": "merged db2 into db1."}]. *)
Theorem merge_appends_donor (db1 db2 : string) (w : World)
  (a d : Index) :
  dbs w !! db1 = Some a -> dbs w !! db2 = Some d -> header a = header d ->
  exists acceptor donor merged w',
    BIGSI w db1 None None None = Ok acceptor /\
    BIGSI w db2 None None None = Ok donor /\
    merge_method acceptor donor w = (Ok tt, w') /\
    merge db1 db2 w =
      (Ok (VDict [("result",
                   VStr ("merged " +:+ db2 +:+ " into " +:+ db1 +:+ "."))]),
       w') /\
    dbs w' = <[db1 := merged]> (dbs w) /\
    header merged = header a /\
    registry merged = registry a ++ registry d /\
    (forall c s, registry a !! c = Some s -> registry merged !! c = Some s) /\
    (forall c s, registry d !! c = Some s ->
       registry merged !! (length (registry a) + c)%nat = Some s) /\
    (forall r, 0 <= r < bloom_filter_size (header a) ->
       rows merged !! r = Some (read_row a r ++ read_row d r) /\
       read_row merged r = read_row a r ++ read_row d r).
Proof.
  intros Ha Hd Hparams.
  destruct (merge_index a d) as [merged|e] eqn:Hmerge; cycle 1.
  { unfold merge_index in Hmerge.
    by rewrite bool_decide_eq_true_2 in Hmerge. }
  destruct (merge_index_registry _ _ _ Hmerge) as [Hheader Hreg].
  exists (mkHandle db1 None None None (header a)),
    (mkHandle db2 None None None (header d)), merged,
    (set_dbs w (<[db1 := merged]> (dbs w))).
  assert (BIGSI w db1 None None None
          = Ok (mkHandle db1 None None None (header a))) as Hopen1
    by (unfold BIGSI; by rewrite Ha).
  assert (BIGSI w db2 None None None
          = Ok (mkHandle db2 None None None (header d))) as Hopen2
    by (unfold BIGSI; by rewrite Hd).
  assert (merge_method (mkHandle db1 None None None (header a))
            (mkHandle db2 None None None (header d)) w
          = (Ok tt, set_dbs w (<[db1 := merged]> (dbs w)))) as Hmethod
    by (unfold merge_method; simpl; by rewrite Ha, Hd, Hmerge).
  split; [done|]. split; [done|]. split; [done|]. split.
  { unfold merge, mbind, open, ret. by rewrite Hopen1, Hopen2, Hmethod. }
  split; [done|]. split; [done|]. split; [done|]. split.
  { intros c s Hc. rewrite Hreg. by apply lookup_app_l_Some. }
  split.
  { intros c s Hc. rewrite Hreg, lookup_app_r by lia.
    by replace (length (registry a) + c - length (registry a))%nat with c
      by lia. }
  intros r Hr. split.
  - by apply merge_index_rows.
  - by apply merge_index_read_row.
Qed.

Lemma merge_appends_donor_witness :
  exists merged w',
    merge "A" "B" Scenario.world
      = (Ok (VDict [("result", VStr "merged B into A.")]), w') /\
    dbs w' = <["A" := merged]> (dbs Scenario.world) /\
    registry merged = [Live "S1"; Tombstoned; Live "S2"] /\
    read_row merged 3 = [true; false; true].
Proof.
  destruct (merge_appends_donor "A" "B" Scenario.world Scenario.index_A
              Scenario.index_B eq_refl eq_refl eq_refl)
    as (acceptor & donor & merged & w' & _ & _ & _ & Hmerge & Hdbs & _
        & Hreg & _ & _ & Hrows).
  exists merged, w'. split; [exact Hmerge|]. split; [exact Hdbs|].
  split; [exact Hreg|].
  destruct (Hrows 3 ltac:(simpl; lia)) as [_ Hrow]. exact Hrow.
Defined.

(** Merging [B] into [A], run: the donor keeps its own columns, the
    acceptor has three. *)
Example merge_scenario :
  let w' := (merge "A" "B" Scenario.world).2 in
  registry <$> dbs w' !! "A" = Some [Live "S1"; Tombstoned; Live "S2"] /\
  registry <$> dbs w' !! "B" = Some [Tombstoned; Live "S2"] /\
  (fun idx => read_row idx 9) <$> dbs w' !! "A" = Some [false; false; true].
Proof. vm_compute. repeat split; reflexivity. Qed.

(** Indexes created with different parameters are not merged. *)
Example merge_parameter_mismatch :
  let w := mkWorld {[ "A" := Scenario.index_A;
                      "C" := mkIndex (Scenario.params 32) ∅ [] ]} ∅ [] in
  merge "A" "C" w = (Raise ParameterMismatch, w).
Proof. vm_compute. reflexivity. Qed.

(** ** [run_subtool] *)

Section Dispatch.
Variables (Parser Redis : Type).
Variable cmds_run :
  Remcdbg.subtool -> Parser -> gmap string value ->
  list (option string * Z) ->
  Redis * list string -> result value * (Redis * list string).
Variable conn_config : list (option string * Z).

(** Each of the eight names selects the module of that name. *)
Lemma select_run_module_name (t : Remcdbg.subtool) :
  Remcdbg.select_run (VStr (Remcdbg.module_name t)) = Some t.
Proof. by destruct t. Qed.

Lemma module_name_cases (c : string) :
  c ∈ ["insert"; "query"; "stats"; "samples"; "kmers"; "compress";
       "shutdown"; "bitcount"] ->
  exists t, Remcdbg.module_name t = c.
Proof.
  rewrite !elem_of_cons, elem_of_nil.
  intros [->|[->|[->|[->|[->|[->|[->|[->|[]]]]]]]]].
  - by exists Remcdbg.Insert.
  - by exists Remcdbg.Query.
  - by exists Remcdbg.Stats.
  - by exists Remcdbg.Samples.
  - by exists Remcdbg.Kmers.
  - by exists Remcdbg.Compress.
  - by exists Remcdbg.Shutdown.
  - by exists Remcdbg.Bitcount.
Qed.

(** Any other command leaves [run] unbound. *)
Lemma select_run_other (command : value) :
  (forall t, command <> VStr (Remcdbg.module_name t)) ->
  Remcdbg.select_run command = None.
Proof.
  intros Hother. unfold Remcdbg.select_run, Remcdbg.command_is.
  destruct command as [| | | |s| |]; try done.
  repeat match goal with
         | |- context [String.eqb s ?name] =>
             destruct (String.eqb_spec s name) as [->|_]
         end; try done.
  - by destruct (Hother Remcdbg.Insert).
  - by destruct (Hother Remcdbg.Query).
  - by destruct (Hother Remcdbg.Stats).
  - by destruct (Hother Remcdbg.Samples).
  - by destruct (Hother Remcdbg.Kmers).
  - by destruct (Hother Remcdbg.Compress).
  - by destruct (Hother Remcdbg.Shutdown).
  - by destruct (Hother Remcdbg.Bitcount).
Qed.

End Dispatch.

(** C7: for every command among [insert], [query], [stats], [samples],
    [kmers], [compress], [shutdown] and [bitcount], [run_subtool] picks, by
    comparing [args.command] with the name, the [run] of the sub-command
    module of that name and calls it with [(parser, args, CONN_CONFIG)];
    its error [BusyLoadingError] is answered with a printed message, any
    other error is passed on. The choice depends on [args.command] only. *)
Theorem run_subtool_routes (Parser Redis : Type)
  (cmds_run :
     Remcdbg.subtool -> Parser -> gmap string value ->
     list (option string * Z) ->
     Redis * list string -> result value * (Redis * list string))
  (conn_config : list (option string * Z)) (parser : Parser)
  (args : gmap string value) (w : Redis * list string) (c : string) :
  c ∈ ["insert"; "query"; "stats"; "samples"; "kmers"; "compress";
       "shutdown"; "bitcount"] ->
  args !! "command" = Some (VStr c) ->
  exists tool,
    Remcdbg.module_name tool = c /\
    Remcdbg.select_run (VStr c) = Some tool /\
    Remcdbg.run_subtool Parser Redis cmds_run conn_config parser args w =
      match cmds_run tool parser args conn_config w with
      | (Raise BusyLoadingError, (redis, out)) =>
          (Ok VNone, (redis, out ++ [Remcdbg.busy_message]))
      | (Raise e, w') => (Raise e, w')
      | (Ok _, w') => (Ok VNone, w')
      end.
Proof.
  intros Hc Hcommand. destruct (module_name_cases c Hc) as [tool <-].
  exists tool. split; [done|].
  pose proof (select_run_module_name tool) as Hsel. split; [done|].
  unfold Remcdbg.run_subtool. by rewrite Hcommand, Hsel.
Qed.

Lemma run_subtool_routes_witness :
  let cmds_run :=
    fun (t : Remcdbg.subtool) (_ : unit) (_ : gmap string value)
        (_ : list (option string * Z)) (w : unit * list string) =>
      (Ok (VStr (Remcdbg.module_name t)), (w.1, w.2 ++ ["ran"])) in
  Remcdbg.run_subtool unit unit cmds_run [(Some "localhost", 6379)] tt
    {[ "command" := VStr "query"; "fasta" := VStr "q.fa";
       "threshold" := VInt 100 ]} (tt, [])
    = (Ok VNone, (tt, ["ran"])).
Proof.
  intros cmds_run.
  destruct (run_subtool_routes unit unit cmds_run
              [(Some "localhost", 6379)] tt
              {[ "command" := VStr "query"; "fasta" := VStr "q.fa";
                 "threshold" := VInt 100 ]} (tt, []) "query")
    as (tool & Hname & Hsel & Hrun).
  - rewrite !elem_of_cons. right. by left.
  - reflexivity.
  - rewrite Hrun. injection Hsel as <-. reflexivity.
Defined.

(** A command outside the eight reaches the call with [run] unbound. *)
Example run_subtool_unknown :
  Remcdbg.run_subtool unit unit
    (fun _ _ _ _ w => (Ok VNone, w)) [] tt
    {[ "command" := VStr "dump" ]} (tt, [])
    = (Raise (UnboundLocalError "run"), (tt, [])).
Proof. reflexivity. Qed.

(** The connection list of a process without Redis variables, and of one
    with a single configured instance. *)
Example CONN_CONFIG_default :
  Remcdbg.CONN_CONFIG ∅ = Ok [(Some "localhost", 6379)].
Proof. reflexivity. Qed.

Example CONN_CONFIG_one :
  Remcdbg.CONN_CONFIG
    {[ "REDIS_IP_1" := "10.0.0.5"; "REDIS_PORT_1" := "7000" ]}
    = Ok [(Some "10.0.0.5", 7000)].
Proof. vm_compute. reflexivity. Qed.

(** * Further properties of the front ends *)

(** ** [bf_range_calc] for any partition count *)
















(** ** [insert] and [build] on the batch index *)




(** X7: with sample names given but not as many as Bloom filters,
    [build] raises [AssertionError] as soon as the index is open,
    whatever [max_memory], [i] and [N] are, and changes nothing. *)
Theorem build_length_mismatch {C : Commands} (db : string)
  (bloomfilters samples : list string) (max_memory : string) (lowmem : bool)
  (i N : Z) (w : World) (index : Handle) :
  BIGSI w db None None None = Ok index ->
  samples <> [] -> length samples <> length bloomfilters ->
  build db bloomfilters samples max_memory lowmem i N w
    = (Raise AssertionError, w).
Proof.
  intros Hopen Hsome Hlen. rewrite build_steps, Hopen.
  destruct samples as [|s samples]; [done|].
  unfold resolve_samples. by rewrite bool_decide_eq_false_2.
Qed.

Lemma build_length_mismatch_witness :
  let C := Scenario.commands in
  build "A" ["x.bloom"] ["S3"; "S4"] "not a size" true 1 0 Scenario.world
    = (Raise AssertionError, Scenario.world).
Proof.
  intros C.
  apply (build_length_mismatch (C := C) "A" ["x.bloom"] ["S3"; "S4"]
           "not a size" true 1 0 Scenario.world
           (mkHandle "A" None None None (Scenario.params 16)));
    [reflexivity|discriminate|simpl; lia].
Defined.



(** ** [bloom] *)

Section Bloom.
Context {C : Commands}.
Variables (outfile db : string) (kmers seqfile ctx : option string).
Variables (N : Z) (w : World).

(** [bloom] step by step. *)
Lemma bloom_steps :
  bloom outfile db kmers seqfile ctx N w =
    match BIGSI w db None None (Some "r") with
    | Raise e => (Raise e, w)
    | Ok index =>
        let m := bloom_filter_size (h_params index) in
        let source :=
          if truthy ctx
          then Some (KmersFromCtx (default "" ctx)
                       (kmer_size (h_params index)))
          else KmersGiven <$> kmers in
        if negb (kmers_truthy source) && negb (truthy seqfile)
        then (Ok (VStr bloom_message), w)
        else if N =? 0 then (Raise ZeroDivisionError, w)
        else
          match Py.range 0 m (ceil_div m N) with
          | Raise e => (Raise e, w)
          | Ok bf_range =>
              match run index
                      (cmds_bloom
                         (mkBloomCall outfile source seqfile index bf_range
                            (ceil_div m N))) w with
              | (Ok _, w') => (Ok VNone, w')
              | (Raise e, w') => (Raise e, w')
              end
          end
    end.
Proof.
  unfold bloom, mbind, open, lift, ret.
  destruct (BIGSI w db None None (Some "r")) as [index|]; [|done].
  cbv zeta. destruct (_ && _); [done|].
  destruct (N =? 0); [done|].
  destruct (Py.range _ _ _) as [bf_range|]; [|done].
  by destruct (run index _ w) as [[]].
Qed.

Lemma kmers_truthy_source (k : Z) :
  kmers_truthy
    (if truthy ctx then Some (KmersFromCtx (default "" ctx) k)
     else KmersGiven <$> kmers)
  = truthy ctx || truthy kmers.
Proof. destruct (truthy ctx); [done|]. by destruct kmers. Qed.

End Bloom.

(** X9: [bloom] opens the index with [mode="r"]: whatever the bloom
    sub-command does and however the call ends, every database is
    afterwards what it was before. *)
Theorem bloom_leaves_index_unchanged {C : Commands} (outfile db : string)
  (kmers seqfile ctx : option string) (N : Z) (w : World) :
  dbs (bloom outfile db kmers seqfile ctx N w).2 = dbs w.
Proof.
  rewrite bloom_steps.
  destruct (BIGSI w db None None (Some "r")) as [index|] eqn:Hopen; [|done].
  apply BIGSI_handle in Hopen as [Hindex _]. cbv zeta.
  destruct (_ && _); [done|]. destruct (N =? 0); [done|].
  destruct (Py.range _ _ _) as [bf_range|]; [|done].
  match goal with
  | |- context [run index ?p w] =>
      pose proof (run_read_only index p w) as Hrun;
      destruct (run index p w) as [[v|e] w']
  end.
  all: simpl in *; apply Hrun; by rewrite Hindex.
Qed.







(** ** [search] reading from standard input *)

(** X13: with [seq = "-"] or [pipe_in] set, [search] reads its query from
    standard input: the call is the one with [pipe_in] set and neither
    [seq] nor [seqfile], so both arguments are ignored; once the index
    is open, standard input is written to the temporary file and the
    search sub-command gets that file and no sequence. *)
Theorem search_reads_stdin {C : Commands} (g : Globals) (ps : Process)
  (a : SearchArgs) (w : World) :
  search_from_stdin (sa_seq a) (sa_pipe_in a) = true ->
  search g ps a w =
    search g ps
      (mkSearchArgs (sa_db a) None None (sa_threshold a)
         (sa_output_format a) (sa_pipe_out a) true (sa_cachesize a)
         (sa_score a) (sa_nproc a)) w /\
  forall bigsi,
    BIGSI w (search_db g (sa_db a)) (Some (sa_cachesize a))
      (Some (sa_nproc a)) (Some "r") = Ok bigsi ->
    search g ps a w =
      match run bigsi
              (cmds_search
                 (mkSearchCall None (Some (mkstemp ps)) (sa_threshold a)
                    bigsi (sa_output_format a)
                    (search_pipe_out (sa_output_format a) (sa_pipe_out a))
                    (sa_score a)))
              (write_file (mkstemp ps) (stdin ps) w) with
      | (Ok result, w2) =>
          (Ok (if search_pipe_out (sa_output_format a) (sa_pipe_out a)
               then VNone else result), w2)
      | (Raise e, w2) => (Raise e, w2)
      end.
Proof.
  intros Hstdin.
  assert (search_no_input (sa_pipe_in a) (sa_seq a) (sa_seqfile a) = false)
    as Hinput.
  { unfold search_from_stdin in Hstdin. unfold search_no_input.
    destruct (sa_pipe_in a); [done|]. rewrite orb_false_r in Hstdin.
    apply bool_decide_eq_true_1 in Hstdin. by rewrite Hstdin. }
  split.
  - unfold search at 1 2. simpl. unfold mbind, open.
    destruct (BIGSI w _ _ _ _) as [bigsi|]; [|done].
    by rewrite Hinput, Hstdin.
  - intros bigsi Hopen.
    pose proof (search_query g ps a w bigsi Hopen Hinput) as Hq.
    cbv zeta in Hq. by rewrite Hstdin in Hq.
Qed.

Lemma search_reads_stdin_witness :
  let C := Scenario.commands in
  let a := mkSearchArgs None (Some "-") (Some "q.fa") 1%Q "json" false false
             4 false 4 in
  files (search Scenario.globals Scenario.process a Scenario.world).2
    !! "/tmp/tmpq" = Some [">q"; "ACGT"].
Proof.
  intros C a.
  destruct (search_reads_stdin (C := C) Scenario.globals Scenario.process a
              Scenario.world eq_refl) as [_ Hcall].
  rewrite (Hcall Scenario.opened eq_refl). vm_compute. reflexivity.
Defined.

(** ** Loading [bigsi/__main__.py] *)

(** X14: the module constants can be set up exactly when each of
    [BFSIZE], [NUM_HASHES] and [CACHESIZE] is either unset or text that
    [int] accepts; [STORAGE] and [BDB_DB_FILENAME] never stand in the
    way. *)
Theorem load_module_succeeds_iff (env : gmap string string) :
  (exists g, load_module env = Ok g) <->
  (forall name text,
     name ∈ ["BFSIZE"; "NUM_HASHES"; "CACHESIZE"] ->
     env !! name = Some text -> exists z, int text = Ok z).
Proof.
  unfold load_module, environ_int. split.
  - intros [g Hload] name text Hname Hset.
    rewrite !elem_of_cons, elem_of_nil in Hname.
    destruct Hname as [->|[->|[->|[]]]]; rewrite Hset in Hload.
    + destruct (int text); [eauto|done].
    + destruct (env !! "BFSIZE") as [t|]; [destruct (int t); [|done]|];
        simpl in Hload; (destruct (int text); [eauto|done]).
    + destruct (env !! "BFSIZE") as [t|]; [destruct (int t); [|done]|];
        simpl in Hload;
        (destruct (env !! "NUM_HASHES") as [t'|];
           [destruct (int t'); [|done]|]);
        simpl in Hload; (destruct (int text); [eauto|done]).
  - intros Hints.
    assert (forall name, name ∈ ["BFSIZE"; "NUM_HASHES"; "CACHESIZE"] ->
            forall dflt, exists z,
              match env !! name with
              | Some s => int s
              | None => Ok dflt
              end = Ok z) as Hint.
    { intros name Hname dflt.
      destruct (env !! name) as [text|] eqn:Hset; [|eauto].
      exact (Hints name text Hname Hset). }
    destruct (Hint "BFSIZE" ltac:(set_solver) 25000000) as [a ->].
    destruct (Hint "NUM_HASHES" ltac:(set_solver) 3) as [b ->].
    destruct (Hint "CACHESIZE" ltac:(set_solver) 1) as [c ->].
    simpl. eauto.
Qed.

Lemma load_module_succeeds_iff_witness :
  exists g,
    load_module {[ "BFSIZE" := " 1_000 "; "STORAGE" := "redis" ]} = Ok g.
Proof.
  apply load_module_succeeds_iff. intros name text Hname Hset.
  rewrite !elem_of_cons, elem_of_nil in Hname.
  destruct Hname as [->|[->|[->|[]]]]; vm_compute in Hset;
    try discriminate.
  injection Hset as <-. exists 1000. vm_compute. reflexivity.
Defined.

(** X15: once loaded, [STORAGE] is the environment variable of that name
    or ["berkeleydb"], and [CACHESIZE] is the integer of the variable of
    that name or 1. *)
Theorem load_module_storage_cachesize (env : gmap string string)
  (g : Globals) :
  load_module env = Ok g ->
  STORAGE g = default "berkeleydb" (env !! "STORAGE") /\
  match env !! "CACHESIZE" with
  | Some text => int text = Ok (CACHESIZE g)
  | None => CACHESIZE g = 1
  end.
Proof.
  unfold load_module, environ_int, environ_get. intros Hload.
  destruct (match env !! "BFSIZE" with
            | Some s => int s | None => Ok 25000000 end); [|done].
  destruct (match env !! "NUM_HASHES" with
            | Some s => int s | None => Ok 3 end); [|done].
  simpl in Hload.
  destruct (env !! "CACHESIZE") as [text|];
    [destruct (int text); [|done]|];
    simpl in Hload; injection Hload as <-; done.
Qed.

Lemma load_module_storage_cachesize_witness :
  let g := mkGlobals 25000000 3 "redis" "./db" 8 in
  STORAGE g = "redis" /\ int "8" = Ok (CACHESIZE g).
Proof.
  intros g.
  destruct (load_module_storage_cachesize
              {[ "STORAGE" := "redis"; "CACHESIZE" := "8" ]} g)
    as [Hstorage Hcachesize]; [vm_compute; reflexivity|].
  split; [exact Hstorage|exact Hcachesize].
Defined.

(** ** [CONN_CONFIG] *)

Lemma collect_Ok {A} (rs : list (result A)) (l : list A) :
  collect rs = Ok l ->
  length l = length rs /\
  forall i a, l !! i = Some a -> rs !! i = Some (Ok a).
Proof.
  revert l. induction rs as [|r rs IH]; intros l; simpl.
  - intros [= <-]. split; [done|]. intros i a Hi. by destruct i.
  - destruct r as [a0|]; [|done].
    destruct (collect rs) as [l0|]; [|done]. intros [= <-].
    destruct (IH l0 eq_refl) as [Hlen Hget]. split; [simpl; lia|].
    intros [|i] a Hi; simpl in *; [congruence|]. by apply Hget.
Qed.

Lemma filter_none {A} (f : A -> bool) (l : list A) :
  (forall x, x ∈ l -> f x = false) -> List.filter f l = [].
Proof.
  induction l as [|x l IH]; intros Hall; [done|]. simpl.
  rewrite (Hall x) by set_solver. apply IH. intros y Hy. apply Hall.
  set_solver.
Qed.

(** The names counted are the variables whose name contains ["REDIS"]. *)
Lemma redis_envs_elem (env : gmap string string) (name : string) :
  name ∈ Remcdbg.redis_envs env <->
  is_Some (env !! name) /\ contains "REDIS" name = true.
Proof.
  unfold Remcdbg.redis_envs.
  rewrite list_elem_of_In, filter_In, <- list_elem_of_In, list_elem_of_fmap.
  split.
  - intros [([k v] & -> & Hkv) Hred]. apply elem_of_map_to_list in Hkv.
    split; [by exists v|done].
  - intros [[v Hv] Hred]. split; [|done]. exists (name, v).
    split; [done|]. by apply elem_of_map_to_list.
Qed.

(** X16: when no environment variable has ["REDIS"] in its name, the
    connection list is the single default [('localhost', 6379)]. *)
Theorem CONN_CONFIG_without_redis (env : gmap string string) :
  (forall name text, env !! name = Some text ->
     contains "REDIS" name = false) ->
  Remcdbg.CONN_CONFIG env = Ok [(Some "localhost", 6379)].
Proof.
  intros Hnone. unfold Remcdbg.CONN_CONFIG.
  assert (Remcdbg.redis_envs env = []) as ->; [|done].
  destruct (Remcdbg.redis_envs env) as [|name names] eqn:Henvs; [done|].
  assert (name ∈ Remcdbg.redis_envs env) as Hin
    by (rewrite Henvs; set_solver).
  apply redis_envs_elem in Hin as [[text Htext] Hred].
  by rewrite (Hnone name text Htext) in Hred.
Qed.

Lemma CONN_CONFIG_without_redis_witness :
  Remcdbg.CONN_CONFIG {[ "HOME" := "/root"; "BFSIZE" := "16" ]}
    = Ok [(Some "localhost", 6379)].
Proof.
  apply CONN_CONFIG_without_redis. intros name text Hset.
  destruct (decide (name = "HOME")) as [->|]; [reflexivity|].
  destruct (decide (name = "BFSIZE")) as [->|]; [reflexivity|].
  rewrite lookup_insert_ne in Hset by done.
  by rewrite lookup_singleton_ne in Hset.
Defined.

(** X17: when some variable has ["REDIS"] in its name and the list can
    be built, it has half as many entries as there are such variables
    (rounded down) and does not contain the default: entry [i] is the host
    [REDIS_IP_<i+1>], or [None] when that variable is unset, with the port
    read from [REDIS_PORT_<i+1>]. *)
Theorem CONN_CONFIG_numbered_entries (env : gmap string string)
  (l : list (option string * Z)) :
  (exists name text,
     env !! name = Some text /\ contains "REDIS" name = true) ->
  Remcdbg.CONN_CONFIG env = Ok l ->
  length l = (length (Remcdbg.redis_envs env) / 2)%nat /\
  forall i host port, l !! i = Some (host, port) ->
    host = env !! ("REDIS_IP_" +:+ pretty (Z.of_nat i + 1)) /\
    exists text,
      env !! ("REDIS_PORT_" +:+ pretty (Z.of_nat i + 1)) = Some text /\
      int text = Ok port.
Proof.
  intros (name & text & Hset & Hred) Hconn.
  unfold Remcdbg.CONN_CONFIG in Hconn.
  assert (name ∈ Remcdbg.redis_envs env) as Hin
    by (apply redis_envs_elem; eauto).
  destruct (Remcdbg.redis_envs env) as [|n0 names] eqn:Henvs;
    [by apply elem_of_nil in Hin|].
  simpl length in *. cbn [Nat.eqb] in Hconn.
  apply collect_Ok in Hconn as [Hlen Hget].
  rewrite length_fmap, length_seq in Hlen. split; [done|].
  intros i host port Hi. apply Hget in Hi.
  rewrite list_lookup_fmap in Hi.
  destruct (seq 0 (S (length names) / 2) !! i) as [j|] eqn:Hj; [|done].
  apply lookup_seq in Hj as [-> _]. simpl in Hi.
  unfold Remcdbg.conn_entry in Hi. injection Hi as Hi.
  destruct (env !! ("REDIS_PORT_" +:+ pretty (Z.of_nat i + 1)))
    as [t|]; [|done].
  destruct (int t) as [p|] eqn:Hp; [|done]. simpl in Hi.
  injection Hi as <- <-. eauto.
Qed.

Lemma CONN_CONFIG_numbered_entries_witness :
  let env : gmap string string :=
    {[ "REDIS_IP_1" := "10.0.0.5"; "REDIS_PORT_1" := "7000" ]} in
  length [(Some "10.0.0.5", 7000)]
    = (length (Remcdbg.redis_envs env) / 2)%nat.
Proof.
  intros env.
  destruct (CONN_CONFIG_numbered_entries env [(Some "10.0.0.5", 7000)])
    as [Hlen _].
  - exists "REDIS_IP_1", "10.0.0.5". split; reflexivity.
  - vm_compute. reflexivity.
  - exact Hlen.
Defined.

(** X18: a single variable with ["REDIS"] in its name gives an empty
    connection list, not the default, and two or more such variables
    without [REDIS_PORT_1] make the module fail with [TypeError]. *)
Theorem CONN_CONFIG_incomplete (env : gmap string string) :
  (length (Remcdbg.redis_envs env) = 1%nat ->
   Remcdbg.CONN_CONFIG env = Ok []) /\
  ((2 <= length (Remcdbg.redis_envs env))%nat ->
   env !! "REDIS_PORT_1" = None ->
   Remcdbg.CONN_CONFIG env = Raise TypeError).
Proof.
  unfold Remcdbg.CONN_CONFIG. split.
  - by intros ->.
  - intros Hmany Hport.
    destruct (length (Remcdbg.redis_envs env)) as [|[|n]]; [lia..|].
    cbn [Nat.eqb].
    assert (exists k, (S (S n) / 2)%nat = S k) as [k ->].
    { exists (Nat.pred (S (S n) / 2)).
      pose proof (Nat.div_str_pos (S (S n)) 2 ltac:(lia)). lia. }
    cbn [seq fmap list_fmap]. unfold Remcdbg.conn_entry at 1.
    change ("REDIS_PORT_" +:+ pretty (Z.of_nat 0 + 1)) with "REDIS_PORT_1".
    by rewrite Hport.
Qed.

Lemma CONN_CONFIG_incomplete_witness :
  Remcdbg.CONN_CONFIG {[ "REDIS_URL" := "redis://cache" ]} = Ok [] /\
  Remcdbg.CONN_CONFIG {[ "REDIS_IP_1" := "a"; "REDIS_IP_2" := "b" ]}
    = Raise TypeError.
Proof.
  destruct (CONN_CONFIG_incomplete {[ "REDIS_URL" := "redis://cache" ]})
    as [Hlone _].
  destruct (CONN_CONFIG_incomplete
              {[ "REDIS_IP_1" := "a"; "REDIS_IP_2" := "b" ]})
    as [_ Hport].
  split.
  - apply Hlone. vm_compute. reflexivity.
  - apply Hport; vm_compute; [lia|reflexivity].
Defined.

(** ** Routing in [run_subtool] *)

(** X19: the [if]/[elif] chain binds the [run] of a module exactly when
    [args.command] is the text of that module's name; the eight names are
    told apart, and any other value, text or not, binds nothing. *)
Theorem select_run_iff (command : value) (t : Remcdbg.subtool) :
  Remcdbg.select_run command = Some t
    <-> command = VStr (Remcdbg.module_name t).
Proof.
  split; [|intros ->; apply select_run_module_name].
  unfold Remcdbg.select_run, Remcdbg.command_is.
  destruct command as [| | | |s| |]; try done.
  repeat match goal with
         | |- context [String.eqb s ?name] =>
             destruct (String.eqb_spec s name) as [->|_]
         end; try done.
  all: by intros [= <-].
Qed.

(** X20: with a command that is none of the eight names, [run_subtool]
    raises [UnboundLocalError] for [run]; no sub-command runs and nothing
    is printed or changed. *)
Theorem run_subtool_unknown_command (Parser Redis : Type)
  (cmds_run :
     Remcdbg.subtool -> Parser -> gmap string value ->
     list (option string * Z) ->
     Redis * list string -> result value * (Redis * list string))
  (conn_config : list (option string * Z)) (parser : Parser)
  (args : gmap string value) (w : Redis * list string) (command : value) :
  args !! "command" = Some command ->
  (forall t, command <> VStr (Remcdbg.module_name t)) ->
  Remcdbg.run_subtool Parser Redis cmds_run conn_config parser args w
    = (Raise (UnboundLocalError "run"), w).
Proof.
  intros Hcommand Hother. unfold Remcdbg.run_subtool.
  by rewrite Hcommand, (select_run_other command Hother).
Qed.

Lemma run_subtool_unknown_command_witness :
  Remcdbg.run_subtool unit unit
    (fun _ _ _ _ w => (Ok VNone, (w.1, w.2 ++ ["ran"]))) [] tt
    {[ "command" := VStr "Insert" ]} (tt, [])
    = (Raise (UnboundLocalError "run"), (tt, [])).
Proof.
  apply (run_subtool_unknown_command unit unit _ [] tt
           {[ "command" := VStr "Insert" ]} (tt, []) (VStr "Insert")).
  - reflexivity.
  - by intros [].
Defined.

(** X21: [run_subtool] never lets [BusyLoadingError] out, and what it
    returns is [None] whatever the sub-command returned; when the
    sub-command raises [BusyLoadingError], its effects stay and the
    message is printed after them. *)
Theorem run_subtool_absorbs_busy (Parser Redis : Type)
  (cmds_run :
     Remcdbg.subtool -> Parser -> gmap string value ->
     list (option string * Z) ->
     Redis * list string -> result value * (Redis * list string))
  (conn_config : list (option string * Z)) (parser : Parser)
  (args : gmap string value) (w : Redis * list string) :
  (Remcdbg.run_subtool Parser Redis cmds_run conn_config parser args w).1
    <> Raise BusyLoadingError /\
  (forall v,
     (Remcdbg.run_subtool Parser Redis cmds_run conn_config parser args w).1
       = Ok v -> v = VNone) /\
  (forall tool redis out,
     args !! "command" = Some (VStr (Remcdbg.module_name tool)) ->
     cmds_run tool parser args conn_config w
       = (Raise BusyLoadingError, (redis, out)) ->
     Remcdbg.run_subtool Parser Redis cmds_run conn_config parser args w
       = (Ok VNone, (redis, out ++ [Remcdbg.busy_message]))).
Proof.
  unfold Remcdbg.run_subtool. split; [|split].
  - destruct (args !! "command") as [command|]; [|done].
    destruct (Remcdbg.select_run command) as [tool|]; [|done].
    destruct (cmds_run tool parser args conn_config w)
      as [[v|e] [redis out]]; [done|].
    by destruct e.
  - intros v. destruct (args !! "command") as [command|]; [|done].
    destruct (Remcdbg.select_run command) as [tool|]; [|done].
    destruct (cmds_run tool parser args conn_config w)
      as [[v'|e] [redis out]]; [by intros [= <-]|].
    destruct e; simpl; try done. by intros [= <-].
  - intros tool redis out Hcommand Hbusy.
    by rewrite Hcommand, select_run_module_name, Hbusy.
Qed.

Lemma run_subtool_absorbs_busy_witness :
  Remcdbg.run_subtool unit unit
    (fun _ _ _ _ w => (Raise BusyLoadingError, (w.1, w.2 ++ ["tried"])))
    [] tt {[ "command" := VStr "stats" ]} (tt, [])
    = (Ok VNone, (tt, ["tried"; Remcdbg.busy_message])).
Proof.
  destruct (run_subtool_absorbs_busy unit unit
              (fun _ _ _ _ w =>
                 (Raise BusyLoadingError, (w.1, w.2 ++ ["tried"])))
              [] tt {[ "command" := VStr "stats" ]} (tt, []))
    as (_ & _ & Hbusy).
  apply (Hbusy Remcdbg.Stats tt ["tried"]); reflexivity.
Defined.

(** ** The row range [build] works on *)



(** X23: [bloom] looks at [N] only after the check for input: with
    something to read and [N = 0] it raises [ZeroDivisionError] once the
    index is open, before the bloom sub-command runs, and with nothing to
    read it answers with the message even for [N = 0]. Nothing changes
    either way. *)
Theorem bloom_zero_batches {C : Commands} (outfile db : string)
  (kmers seqfile ctx : option string) (w : World) (index : Handle) :
  BIGSI w db None None (Some "r") = Ok index ->
  bloom outfile db kmers seqfile ctx 0 w =
    if truthy ctx || truthy kmers || truthy seqfile
    then (Raise ZeroDivisionError, w)
    else (Ok (VStr bloom_message), w).
Proof.
  intros Hopen. rewrite bloom_steps, Hopen. cbv zeta.
  rewrite kmers_truthy_source.
  by destruct (truthy ctx), (truthy kmers), (truthy seqfile).
Qed.

Lemma bloom_zero_batches_witness :
  let C := Scenario.commands in
  bloom "out.bloom" "A" None (Some "reads.fq") None 0 Scenario.world
    = (Raise ZeroDivisionError, Scenario.world).
Proof.
  intros C.
  apply (bloom_zero_batches (C := C) "out.bloom" "A" None (Some "reads.fq")
           None Scenario.world
           (mkHandle "A" None None (Some "r") (Scenario.params 16))).
  reflexivity.
Defined.

Lemma select_run_iff_witness :
  Remcdbg.select_run (VStr "kmers") = Some Remcdbg.Kmers.
Proof. apply select_run_iff. reflexivity. Defined.
